(** * The ADT service of homebridge-fidelity-adt-secure-home

    A shallow embedding of [lib/adt.js] (the [ADT] class: session, state
    cache with expiry-driven refresh, arm/disarm dispatch) together with the
    JavaScript notions it relies on: dynamically typed values, truthiness,
    strict equality, property lookup, identifier resolution, exceptions and
    promises.

    Conventions.
    - A JavaScript value is a [Val]; numbers are the integers ([Z]).
    - A method is a computation in the monad [M]: it reads and updates a
      [World] (the instance's fields, the node-cache store, the log and the
      events emitted so far) and completes normally or abruptly, as in
      ECMA-262.  What a computation did before it threw stays done.
    - An [async] method is the same kind of computation: normal completion is
      a fulfilled promise, abrupt completion a rejected one, and [await] is
      the monad's bind.  Continuations run in program order; the reply to the
      n-th HTTP request is given by the [remote] function.
    - The logger, the subscribers of the events and the HTTP service are
      outside the program: calls to them are recorded in the trace. *)

From Stdlib Require Import ZArith List String Ascii Bool Lia.
From stdpp Require Import base option gmap strings pretty.

Local Open Scope string_scope.
Local Open Scope Z_scope.
Set Warnings "-register-all".

(** ** Values *)

Inductive ErrorKind := Error | TypeError | ReferenceError.

Inductive Val :=
| VUndef
| VNull
| VBool (b : bool)
| VNum (n : Z)
| VStr (s : string)
| VArr (items : list Val)
| VObj (fields : list (string * Val))
| VErr (kind : ErrorKind) (message : string)
| VFun (name : string).

Definition ErrorKind_eqb (a b : ErrorKind) : bool :=
  match a, b with
  | Error, Error | TypeError, TypeError | ReferenceError, ReferenceError => true
  | _, _ => false
  end.

Definition ErrorKind_name (k : ErrorKind) : string :=
  match k with
  | Error => "Error"
  | TypeError => "TypeError"
  | ReferenceError => "ReferenceError"
  end.

(** ToBoolean.  Objects, arrays, errors and functions are always truthy, the
    empty object included. *)
Definition truthy (v : Val) : bool :=
  match v with
  | VUndef | VNull => false
  | VBool b => b
  | VNum n => negb (n =? 0)
  | VStr s => negb (String.eqb s "")
  | VArr _ | VObj _ | VErr _ _ | VFun _ => true
  end.

(** [a || b] and [a && b] on values. *)
Definition js_or (a b : Val) : Val := if truthy a then a else b.
Definition js_and (a b : Val) : Val := if truthy a then b else a.

(** [a === b].  Primitives compare by value.  Objects, arrays, errors and
    functions compare by identity, which the embedding does not carry: two
    such operands are taken to be distinct allocations. *)
Definition strict_eq (a b : Val) : bool :=
  match a, b with
  | VUndef, VUndef => true
  | VNull, VNull => true
  | VBool x, VBool y => Bool.eqb x y
  | VNum x, VNum y => x =? y
  | VStr x, VStr y => String.eqb x y
  | _, _ => false
  end.

Fixpoint assoc (k : string) (l : list (string * Val)) : option Val :=
  match l with
  | [] => None
  | (k', v) :: l' => if String.eqb k k' then Some v else assoc k l'
  end.

(** ToString, as used by [+] with a string operand.  A number is printed in
    full decimal, as JavaScript prints the whole numbers below 1e21; from
    there on JavaScript switches to the exponent form, which the integers of
    this embedding do not carry. *)
Fixpoint to_string (v : Val) : string :=
  match v with
  | VUndef => "undefined"
  | VNull => "null"
  | VBool true => "true"
  | VBool false => "false"
  | VNum n => pretty n
  | VStr s => s
  | VArr items =>
      (fix join (l : list Val) : string :=
         match l with
         | [] => ""
         | x :: l' =>
             let sx := match x with VUndef | VNull => "" | _ => to_string x end in
             match l' with
             | [] => sx
             | _ => sx ++ "," ++ join l'
             end
         end) items
  | VObj _ => "[object Object]"
  | VErr k m => if String.eqb m "" then ErrorKind_name k else ErrorKind_name k ++ ": " ++ m
  | VFun name => "function " ++ name ++ "() { [native code] }"
  end.

Definition js_concat (a b : Val) : Val := VStr (to_string a ++ to_string b).

(** ToNumber restricted to the integers of this embedding; [None] is NaN.
    A numeric string is an optional sign followed by decimal digits. *)
Definition digit_of (c : ascii) : option Z :=
  let n := Z.of_nat (nat_of_ascii c) in
  if (48 <=? n) && (n <=? 57) then Some (n - 48) else None.

Fixpoint parse_digits (acc : Z) (s : string) : option Z :=
  match s with
  | EmptyString => Some acc
  | String c s' =>
      match digit_of c with
      | Some d => parse_digits (10 * acc + d) s'
      | None => None
      end
  end.

Definition string_to_number (s : string) : option Z :=
  match s with
  | EmptyString => Some 0
  | String "-" (String c r) => Z.opp <$> parse_digits 0 (String c r)
  | String "+" (String c r) => parse_digits 0 (String c r)
  | String "-" EmptyString | String "+" EmptyString => None
  | _ => parse_digits 0 s
  end.

Definition to_number (v : Val) : option Z :=
  match v with
  | VUndef => None
  | VNull => Some 0
  | VBool b => Some (if b then 1 else 0)
  | VNum n => Some n
  | VStr s => string_to_number s
  | VArr _ => string_to_number (to_string v)
  | VObj _ | VErr _ _ | VFun _ => None
  end.

(** [a > b]; a comparison with NaN is false. *)
Definition js_gt (a b : Val) : bool :=
  match to_number a, to_number b with
  | Some x, Some y => y <? x
  | _, _ => false
  end.

(** ** Completions *)

Inductive Completion (A : Type) :=
| Normal (a : A)
| Throw (e : Val).
Arguments Normal {A} a.
Arguments Throw {A} e.

(** The engine's own errors, with V8's messages. *)
Definition not_defined (x : string) : Val :=
  VErr ReferenceError (x ++ " is not defined").
Definition not_a_function (callee : string) : Val :=
  VErr TypeError (callee ++ " is not a function").
Definition cannot_read (of_ : string) (p : string) : Val :=
  VErr TypeError ("Cannot read properties of " ++ of_ ++ " (reading '" ++ p ++ "')").

(** [v.p] for a property name [p] written in the source: the data
    properties of objects and errors and the [length] of arrays and strings.
    Reading a property of [undefined] or [null] throws. *)
Definition get_prop (v : Val) (p : string) : Completion Val :=
  match v with
  | VUndef => Throw (cannot_read "undefined" p)
  | VNull => Throw (cannot_read "null" p)
  | VObj fields => Normal (default VUndef (assoc p fields))
  | VArr items =>
      if String.eqb p "length" then Normal (VNum (Z.of_nat (length items)))
      else Normal VUndef
  | VStr s =>
      if String.eqb p "length" then Normal (VNum (Z.of_nat (String.length s)))
      else Normal VUndef
  | VErr k m =>
      if String.eqb p "message" then Normal (VStr m)
      else if String.eqb p "name" then Normal (VStr (ErrorKind_name k))
      else Normal VUndef
  | VBool _ | VNum _ | VFun _ => Normal VUndef
  end.

(** [v[0]]. *)
Definition get_first (v : Val) : Completion Val :=
  match v with
  | VUndef => Throw (cannot_read "undefined" "0")
  | VNull => Throw (cannot_read "null" "0")
  | VArr items => Normal (hd VUndef items)
  | VObj fields => Normal (default VUndef (assoc "0" fields))
  | VStr (String c _) => Normal (VStr (String c EmptyString))
  | _ => Normal VUndef
  end.

(** ** The world a method runs in *)

Inductive LogLevel := Info | Debug | Err.

(** An argument handed to the logger: a value, or the text
    [JSON.stringify] makes of a value. *)
Inductive Arg :=
| Plain (v : Val)
| Json (v : Val).
Coercion Plain : Val >-> Arg.

Inductive Event :=
| Log (level : LogLevel) (args : list Arg)   (* this.log(..), this.log.debug(..), this.log.error(..) *)
| Emit (event : string) (args : list Val)    (* this.emit(event, ..) delivered to the subscribers *)
| Request (options : Val)                    (* request(options) *)
| Call (callee : string) (args : list Val)   (* a call of a function value from outside the module *)
| UnhandledRejection (reason : Val).         (* a rejected promise nobody handles *)

(** The two listeners [init] installs on the cache. *)
Inductive SetListener := EmitStateIfAlarm.
Inductive ExpiredListener := RefreshStatus.

(** node-cache, as far as the class uses it: the options it was created
    with, the stored values by key, and the registered listeners. *)
Record NodeCache := {
  stdTTL : Val;
  checkperiod : Val;
  useClones : Val;
  data : gmap string Val;
  set_listeners : list SetListener;
  expired_listeners : list ExpiredListener
}.

(** The fields of an [ADT] instance. *)
Record ADT := {
  name : Val;
  username : Val;
  password : Val;
  cacheTTL : Val;
  keypadPin : Val;
  statusCache : NodeCache;
  targetState : Val;
  token : Val;
  userId : Val;
  siteId : Val;
  subscribers : list (string * Val)
}.

Record World := {
  this : ADT;
  trace : list Event
}.

Definition M (A : Type) : Type := World -> Completion A * World.

#[global] Instance M_ret : MRet M := fun A a w => (Normal a, w).
#[global] Instance M_bind : MBind M := fun A B f m w =>
  match m w with
  | (Normal a, w') => f a w'
  | (Throw e, w') => (Throw e, w')
  end.

Definition throw {A} (e : Val) : M A := fun w => (Throw e, w).

(** [try { body } catch (error) { handler }]; for promises,
    [body.catch(handler)]. *)
Definition try_catch {A} (body : M A) (handler : Val -> M A) : M A := fun w =>
  match body w with
  | (Normal a, w') => (Normal a, w')
  | (Throw e, w') => handler e w'
  end.

(** A promise that is dropped: its fulfilment value is lost, its rejection
    is unhandled. *)
Definition detach {A} (p : M A) : M unit := fun w =>
  match p w with
  | (Normal _, w') => (Normal tt, w')
  | (Throw e, w') =>
      (Normal tt, {| this := this w'; trace := trace w' ++ [UnhandledRejection e] |})
  end.

Definition lift {A} (c : Completion A) : M A := fun w => (c, w).
Definition gets {A} (f : ADT -> A) : M A := fun w => (Normal (f (this w)), w).
Definition modify (f : ADT -> ADT) : M unit := fun w =>
  (Normal tt, {| this := f (this w); trace := trace w |}).
Definition record (e : Event) : M unit := fun w =>
  (Normal tt, {| this := this w; trace := trace w ++ [e] |}).

Definition log (args : list Arg) : M unit := record (Log Info args).
Definition log_debug (args : list Arg) : M unit := record (Log Debug args).
Definition log_error (args : list Arg) : M unit := record (Log Err args).

(** The requests among the events. *)
Definition requests (t : list Event) : list Val :=
  omap (fun e => match e with Request o => Some o | _ => None end) t.

(** The [event] notifications among the events, with their arguments. *)
Definition emitted (event : string) (t : list Event) : list (list Val) :=
  omap (fun e => match e with
                 | Emit ev args => if String.eqb ev event then Some args else None
                 | _ => None
                 end) t.

(** Field updates. *)
Definition with_targetState (v : Val) (o : ADT) : ADT :=
  {| name := name o; username := username o; password := password o;
     cacheTTL := cacheTTL o; keypadPin := keypadPin o; statusCache := statusCache o;
     targetState := v; token := token o; userId := userId o; siteId := siteId o;
     subscribers := subscribers o |}.
Definition with_token (v : Val) (o : ADT) : ADT :=
  {| name := name o; username := username o; password := password o;
     cacheTTL := cacheTTL o; keypadPin := keypadPin o; statusCache := statusCache o;
     targetState := targetState o; token := v; userId := userId o; siteId := siteId o;
     subscribers := subscribers o |}.
Definition with_userId (v : Val) (o : ADT) : ADT :=
  {| name := name o; username := username o; password := password o;
     cacheTTL := cacheTTL o; keypadPin := keypadPin o; statusCache := statusCache o;
     targetState := targetState o; token := token o; userId := v; siteId := siteId o;
     subscribers := subscribers o |}.
Definition with_siteId (v : Val) (o : ADT) : ADT :=
  {| name := name o; username := username o; password := password o;
     cacheTTL := cacheTTL o; keypadPin := keypadPin o; statusCache := statusCache o;
     targetState := targetState o; token := token o; userId := userId o; siteId := v;
     subscribers := subscribers o |}.
Definition with_statusCache (c : NodeCache) (o : ADT) : ADT :=
  {| name := name o; username := username o; password := password o;
     cacheTTL := cacheTTL o; keypadPin := keypadPin o; statusCache := c;
     targetState := targetState o; token := token o; userId := userId o; siteId := siteId o;
     subscribers := subscribers o |}.
Definition with_subscribers (l : list (string * Val)) (o : ADT) : ADT :=
  {| name := name o; username := username o; password := password o;
     cacheTTL := cacheTTL o; keypadPin := keypadPin o; statusCache := statusCache o;
     targetState := targetState o; token := token o; userId := userId o; siteId := siteId o;
     subscribers := l |}.
Definition with_data (d : gmap string Val) (c : NodeCache) : NodeCache :=
  {| stdTTL := stdTTL c; checkperiod := checkperiod c; useClones := useClones c;
     data := d; set_listeners := set_listeners c; expired_listeners := expired_listeners c |}.

(** ** Identifiers and members *)

(** The bindings a free identifier of [lib/adt.js] can resolve to: the
    module's own declarations (lines 70 to 80), the CommonJS wrapper's
    parameters and the globals the module mentions.  The module never assigns
    to an undeclared identifier, so nothing is added at run time. *)
Definition module_scope : list (string * Val) :=
  [ ("events", VFun "events");
    ("cheerio", VFun "cheerio");
    ("request", VFun "request");
    ("nodeCache", VFun "nodeCache");
    ("BASE_URL", VStr "https://ids.trintel.co.za/Inhep-Impl-1.0-SNAPSHOT");
    ("LOGIN_PATH", VStr "/auth/login");
    ("SYNC_INFO", VStr "/device/getSyncInfo");
    ("STATE_INFO", VStr "/device/getStateInfo");
    ("ADT", VFun "ADT");
    ("exports", VObj []);
    ("require", VFun "require");
    ("module", VObj []);
    ("Error", VFun "Error");
    ("JSON", VObj []);
    ("undefined", VUndef) ].

Definition resolve (x : string) : M Val :=
  match assoc x module_scope with
  | Some v => mret v
  | None => throw (not_defined x)
  end.

(** The methods the class body defines (lines 81 to 414) and the ones it
    inherits from [events.EventEmitter] and [Object]. *)
Definition ADT_prototype : list string :=
  [ "constructor"; "init"; "getState"; "setState"; "login"; "getSyncInfo";
    "getStateInfo"; "getUserPreferences"; "getStatusFromDevice";
    "armBeamsOnly"; "disarmSite" ].

Definition EventEmitter_prototype : list string :=
  [ "on"; "addListener"; "prependListener"; "once"; "prependOnceListener";
    "off"; "removeListener"; "removeAllListeners"; "emit"; "listeners";
    "rawListeners"; "listenerCount"; "eventNames"; "setMaxListeners";
    "getMaxListeners" ].

Definition Object_prototype : list string :=
  [ "hasOwnProperty"; "isPrototypeOf"; "propertyIsEnumerable"; "toString";
    "toLocaleString"; "valueOf" ].

Definition in_list (x : string) (l : list string) : bool :=
  existsb (String.eqb x) l.

Definition own_properties (o : ADT) : list (string * Val) :=
  [ ("log", VFun "log"); ("name", name o); ("username", username o);
    ("password", password o); ("cacheTTL", cacheTTL o); ("keypadPin", keypadPin o);
    ("statusCache", VObj [("options", VObj [("stdTTL", stdTTL (statusCache o));
                                              ("checkperiod", checkperiod (statusCache o));
                                              ("useClones", useClones (statusCache o))])]);
    ("targetState", targetState o); ("token", token o); ("userId", userId o);
    ("siteId", siteId o) ].

(** [this.p]: own properties first, then the prototype chain. *)
Definition this_prop (o : ADT) (p : string) : Val :=
  match assoc p (own_properties o) with
  | Some v => v
  | None =>
      if in_list p ADT_prototype then VFun ("ADT.prototype." ++ p)
      else if in_list p EventEmitter_prototype then VFun ("EventEmitter.prototype." ++ p)
      else if in_list p Object_prototype then VFun ("Object.prototype." ++ p)
      else VUndef
  end.

(** [f(args)] for a member [f] found by [this_prop]; [callee] is the source
    text of the callee. *)
Definition call (f : Val) (callee : string) (args : list Val) : M Val :=
  match f with
  | VFun fname => record (Call fname args);; mret VUndef
  | _ => throw (not_a_function callee)
  end.

(** [this.emit(event, ..args)].  As [events] has it, emitting 'error' when
    nobody listens for it throws. *)
Definition emit (event : string) (args : list Val) : M unit :=
  subs ← gets subscribers;
  if String.eqb event "error" && negb (existsb (fun s => String.eqb (fst s) "error") subs)
  then match args with
       | VErr k m :: _ => throw (VErr k m)
       | _ => throw (VErr Error ("Unhandled error. (" ++ to_string (hd VUndef args) ++ ")"))
       end
  else record (Emit event args).

(** [this.on(event, listener)]. *)
Definition on (event : string) (listener : Val) : M unit :=
  modify (fun o => with_subscribers (subscribers o ++ [(event, listener)]) o).

#[global] Instance Completion_ret : MRet Completion := fun A a => Normal a.
#[global] Instance Completion_bind : MBind Completion := fun A B f c =>
  match c with
  | Normal a => f a
  | Throw e => Throw e
  end.

(** [new Error(message)]. *)
Definition new_Error (message : Val) : Val := VErr Error (to_string message).

(** [typeof v]. *)
Definition typeof (v : Val) : string :=
  match v with
  | VUndef => "undefined"
  | VNull | VArr _ | VObj _ | VErr _ _ => "object"
  | VBool _ => "boolean"
  | VNum _ => "number"
  | VStr _ => "string"
  | VFun _ => "function"
  end.

(** ** node-cache

    The package is a dependency of the repository, not part of it.  Its
    operations are taken from its documentation: keys are strings or numbers
    (anything else is refused with an error), [set] stores the value and then
    notifies the 'set' listeners, [get] answers [undefined] for a key it
    does not hold, [del] removes a key, and a key whose time to live has
    passed is removed before the 'expired' listeners are notified.  The
    clock is not modelled: expiry is the event [NodeCache_expire]. *)

Definition NodeCache_new (options : Val) : NodeCache :=
  {| stdTTL := default VUndef (assoc "stdTTL" (match options with VObj f => f | _ => [] end));
     checkperiod := default VUndef (assoc "checkperiod" (match options with VObj f => f | _ => [] end));
     useClones := default VUndef (assoc "useClones" (match options with VObj f => f | _ => [] end));
     data := ∅;
     set_listeners := [];
     expired_listeners := [] |}.

Definition NodeCache_key (key : Val) : M string :=
  match key with
  | VStr k => mret k
  | VNum n => mret (pretty n)
  | _ => throw (VErr Error ("The key argument has to be of type `string` or `number`. Found: `"
                            ++ typeof key ++ "`"))
  end.

(** The 'set' listener of lines 114 to 116. *)
Definition on_set (l : SetListener) (key state : Val) : M unit :=
  match l with
  | EmitStateIfAlarm =>
      if truthy state then
        alarm ← lift (get_prop state "alarm");
        if truthy alarm then emit "state" [state] else mret tt
      else mret tt
  end.

Fixpoint notify_set (ls : list SetListener) (key state : Val) : M unit :=
  match ls with
  | [] => mret tt
  | l :: ls' => on_set l key state;; notify_set ls' key state
  end.

(** [get]: the stored value, [null] where the stored value is [undefined]
    (node-cache unwraps a missing value as [null]), and [undefined] for a key
    it does not hold. *)
Definition NodeCache_get (key : Val) : M Val :=
  k ← NodeCache_key key;
  d ← gets (fun o => data (statusCache o));
  mret (match d !! k with
        | Some VUndef => VNull
        | Some value => value
        | None => VUndef
        end).

Definition NodeCache_set (key value : Val) : M Val :=
  k ← NodeCache_key key;
  modify (fun o => with_statusCache (with_data (<[k := value]> (data (statusCache o))) (statusCache o)) o);;
  ls ← gets (fun o => set_listeners (statusCache o));
  notify_set ls key value;;
  mret (VBool true).

Definition NodeCache_del (key : Val) : M Val :=
  k ← NodeCache_key key;
  d ← gets (fun o => data (statusCache o));
  match d !! k with
  | Some _ =>
      modify (fun o => with_statusCache (with_data (delete k (data (statusCache o))) (statusCache o)) o);;
      mret (VNum 1)
  | None => mret (VNum 0)
  end.

Definition NodeCache_on_set (l : SetListener) : M unit :=
  modify (fun o =>
    let c := statusCache o in
    with_statusCache
      {| stdTTL := stdTTL c; checkperiod := checkperiod c; useClones := useClones c;
         data := data c; set_listeners := set_listeners c ++ [l];
         expired_listeners := expired_listeners c |} o).

Definition NodeCache_on_expired (l : ExpiredListener) : M unit :=
  modify (fun o =>
    let c := statusCache o in
    with_statusCache
      {| stdTTL := stdTTL c; checkperiod := checkperiod c; useClones := useClones c;
         data := data c; set_listeners := set_listeners c;
         expired_listeners := expired_listeners c ++ [l] |} o).

(** ** The class *)

Definition headers : Val :=
  VObj [ ("Host", VStr "ids.trintel.co.za");
         ("accept", VStr "application/json, text/plain, */*");
         ("content-type", VStr "application/x-www-form-urlencoded");
         ("user-agent", VStr "SecureHome/152 CFNetwork/1496.0.1 Darwin/23.5.0");
         ("accept-language", VStr "en-GB,en;q=0.9") ].

Definition pkg : Val := VStr "com.adtsa.adtsa.chfd.mobile.ios.fadtsh".
Definition imei : Val := VStr "11B9F5D6-5B09-4FCD-882A-4055B9B8AE16".

Definition missing_parameter : Val :=
  VErr Error "Missing parameter. Please check configuration.".

Definition not_ready : Val :=
  VErr Error "Can't arm system. System is not ready.".

(** [getStatusFromDevice] (lines 318 to 323): the object it builds stays
    local, and the body ends without a [return]. *)
Definition getStatusFromDevice : M Val :=
  let state := VObj [("alarm", VObj []); ("contactSensors", VObj [])] in
  mret VUndef.

(** [getState] (lines 145 to 147). *)
Definition getState : M Val :=
  STATUS ← resolve "STATUS";
  NodeCache_get STATUS.

(** Lines 154 to 171 of [setState]: what follows the read of the cache. *)
Definition setState_dispatch (status currentStatus : Val) : M Val :=
  let issue : M Val :=
    log [Plain (VStr "Setting status to"); Plain status];;
    sendStateToDevice ← gets (fun o => this_prop o "sendStateToDevice");
    call sendStateToDevice "this.sendStateToDevice" [status];;
    mret VNull in
  if truthy currentStatus then
    alarm ← lift (get_prop currentStatus "alarm");
    if truthy alarm then
      armingState ← lift (get_prop alarm "armingState");
      if strict_eq armingState status then
        log_debug [Plain (VStr "No status change needed")];;
        modify (with_targetState VUndef);;
        mret VNull
      else
        faultStatus ← (if strict_eq armingState (VNum 3)
                       then lift (get_prop alarm "faultStatus") else mret VUndef);
        if strict_eq armingState (VNum 3) && strict_eq faultStatus (VNum 1) then
          log_error [Plain (VStr "Can't arm system. System is not ready.")];;
          modify (with_targetState VUndef);;
          mret not_ready
        else issue
    else issue
  else issue.

(** [setState] (lines 149 to 172). *)
Definition setState (status : Val) : M Val :=
  modify (with_targetState status);;
  currentStatus ← getState;
  setState_dispatch status currentStatus.

Section Remote.

(** The vendor's HTTP service: [remote n options] is what the promise of
    the [n]-th call [request(options)] settles to (counting from 0), the
    decoded body or the reason of the rejection. *)
Variable remote : nat -> Val -> Completion Val.

Definition request (options : Val) : M Val := fun w =>
  let n := length (requests (trace w)) in
  (record (Request options);; lift (remote n options)) w.

(** [response.status === 'SUCCESS' && response.masterSites &&
    response.masterSites.length > 0] (line 232). *)
Definition has_master_site (response : Val) : Completion bool :=
  status ← get_prop response "status";
  if strict_eq status (VStr "SUCCESS") then
    masterSites ← get_prop response "masterSites";
    if truthy masterSites then
      len ← get_prop masterSites "length";
      mret (js_gt len (VNum 0))
    else mret false
  else mret false.

(** The [options] of lines 211 to 228. *)
Definition getSyncInfo_options (syncInfoUrl tok : Val) : Val :=
  VObj [ ("method", VStr "POST"); ("uri", syncInfoUrl); ("headers", headers);
         ("body", VObj [("token", tok); ("pkg", pkg); ("imei", imei)]);
         ("json", VBool true); ("gzip", VBool true) ].

(** [getSyncInfo] (lines 208 to 240). *)
Definition getSyncInfo : M Val :=
  try_catch
    (BASE_URL ← resolve "BASE_URL";
     let syncInfoUrl := js_concat BASE_URL (VStr "/device/getSyncInfo") in
     tok ← gets token;
     let options := getSyncInfo_options syncInfoUrl tok in
     response ← request options;
     ok ← lift (has_master_site response);
     if ok : bool then
       masterSites ← lift (get_prop response "masterSites");
       site ← lift (get_first masterSites);
       id ← lift (get_prop site "id");
       modify (with_siteId id);;
       mret VUndef
     else
       throw (new_Error (VStr "Failed to retrieve sync info or masterSites array is empty")))
    (fun error =>
       message ← lift (get_prop error "message");
       throw (new_Error (js_concat (VStr "Failed to retrieve sync info or save ID: ") message))).

(** [login] (lines 174 to 206). *)
Definition login : M Val :=
  try_catch
    (BASE_URL ← resolve "BASE_URL";
     LOGIN_PATH ← resolve "LOGIN_PATH";
     let loginUrl := js_concat BASE_URL LOGIN_PATH in
     email ← gets username;
     pass ← gets password;
     let options :=
       VObj [ ("method", VStr "GET"); ("uri", loginUrl);
              ("qs", VObj [ ("email", email); ("password", pass); ("pkg", pkg);
                            ("deviceName", VStr "iPhone"); ("_appVersionCode", VStr "415");
                            ("_appPkg", pkg); ("imei", imei); ("deviceOS", VStr "17.4.1") ]);
              ("json", VBool true) ] in
     response ← request options;
     status ← lift (get_prop response "status");
     tok ← (if strict_eq status (VStr "SUCCESS")
            then lift (get_prop response "token") else mret VUndef);
     if strict_eq status (VStr "SUCCESS") && truthy tok then
       modify (with_token tok);;
       user ← lift (get_prop response "user");
       id ← lift (get_prop user "id");
       modify (with_userId id);;
       getSyncInfo;;
       tok' ← gets token;
       log_debug [Plain (VStr "Login successful. Token:"); Plain tok'];;
       mret VUndef
     else
       throw (new_Error (VStr "Login failed")))
    (fun error =>
       message ← lift (get_prop error "message");
       throw (new_Error (js_concat (VStr "Login failed: ") message))).

(** [getStateInfo] (lines 242 to 279). *)
Definition getStateInfo : M Val :=
  try_catch
    (BASE_URL ← resolve "BASE_URL";
     let stateInfoUrl := js_concat BASE_URL (VStr "/device/getStateInfo") in
     tok ← gets token;
     let options :=
       VObj [ ("method", VStr "POST"); ("uri", stateInfoUrl); ("headers", headers);
              ("body", VObj [ ("token", tok); ("pkg", pkg); ("deviceName", VStr "iPhone");
                              ("_appVersionCode", VStr "415"); ("_appPkg", pkg);
                              ("imei", imei); ("deviceOS", VStr "17.5") ]);
              ("json", VBool true); ("gzip", VBool true) ] in
     response ← request options;
     status ← lift (get_prop response "status");
     if strict_eq status (VStr "SUCCESS") then mret response
     else throw (new_Error (VStr "Failed to retrieve state info")))
    (fun error =>
       message ← lift (get_prop error "message");
       throw (new_Error (js_concat (VStr "Failed to retrieve state info: ") message))).

(** [getUserPreferences] (lines 282 to 315). *)
Definition getUserPreferences : M Val :=
  try_catch
    (BASE_URL ← resolve "BASE_URL";
     let preferencesUrl := js_concat BASE_URL (VStr "/user/getUserPreferences") in
     tok ← gets token;
     uid ← gets userId;
     sid ← gets siteId;
     let options :=
       VObj [ ("method", VStr "POST"); ("uri", preferencesUrl); ("headers", headers);
              ("body", VObj [("token", tok); ("userId", uid); ("siteId", sid)]);
              ("json", VBool true); ("gzip", VBool true) ] in
     response ← request options;
     success ← lift (get_prop response "success");
     if truthy success then mret response
     else throw (new_Error (VStr "Failed to retrieve user preferences")))
    (fun error =>
       message ← lift (get_prop error "message");
       throw (new_Error (js_concat (VStr "Failed to retrieve user preferences: ") message))).

(** [armBeamsOnly] (lines 325 to 369). *)
Definition armBeamsOnly : M Val :=
  try_catch
    (BASE_URL ← resolve "BASE_URL";
     let armUrl := js_concat BASE_URL (VStr "/device/armSite") in
     tok ← gets token;
     uid ← gets userId;
     sid ← gets siteId;
     let options :=
       VObj [ ("method", VStr "POST"); ("uri", armUrl); ("headers", headers);
              ("body", VObj [ ("token", tok); ("userId", uid); ("clientImei", imei);
                              ("arm", VBool true); ("siteId", sid);
                              ("stayProfileId", VNum 293224); ("partitionId", VNum 2261370);
                              ("pkg", pkg); ("deviceName", VStr "iPhone");
                              ("_appVersionCode", VStr "415"); ("_appPkg", pkg);
                              ("imei", imei); ("deviceOS", VStr "17.5") ]);
              ("json", VBool true); ("gzip", VBool true) ] in
     response ← request options;
     success ← lift (get_prop response "success");
     if truthy success then
       getSyncInfo;;
       getStateInfo;;
       mret response
     else throw (new_Error (VStr "Arm operation failed")))
    (fun error =>
       message ← lift (get_prop error "message");
       throw (new_Error (js_concat (VStr "Arm operation failed: ") message))).

(** [disarmSite] (lines 372 to 414). *)
Definition disarmSite : M Val :=
  try_catch
    (BASE_URL ← resolve "BASE_URL";
     let disarmUrl := js_concat BASE_URL (VStr "/device/armSite") in
     tok ← gets token;
     uid ← gets userId;
     sid ← gets siteId;
     pin ← gets keypadPin;
     clientImei ← resolve "clientImei";
     let options :=
       VObj [ ("method", VStr "POST"); ("uri", disarmUrl); ("headers", headers);
              ("body", VObj [ ("token", tok); ("userId", uid); ("siteId", sid);
                              ("arm", VBool false); ("pin", pin);
                              ("pkg", pkg); ("deviceName", VStr "iPhone");
                              ("_appVersionCode", VStr "415"); ("_appPkg", pkg);
                              ("imei", clientImei); ("deviceOS", VStr "17.5") ]);
              ("json", VBool true); ("gzip", VBool true) ] in
     response ← request options;
     success ← lift (get_prop response "success");
     if truthy success then
       getSyncInfo;;
       getStateInfo;;
       mret response
     else throw (new_Error (VStr "Disarm operation failed")))
    (fun error =>
       message ← lift (get_prop error "message");
       throw (new_Error (js_concat (VStr "Disarm operation failed: ") message))).

(** The 'expired' listener of lines 117 to 130, for a given fetch;
    [init] installs it with [getStatusFromDevice]. *)
Definition on_expired_with (fetch : M Val) (key : Val) : M unit :=
  log_debug [Plain (js_concat key (VStr " expired"))];;
  detach
    (try_catch
       (state ← fetch;
        STATUS ← resolve "STATUS";
        NodeCache_set STATUS state;;
        mret VUndef)
       (fun error =>
          message ← lift (get_prop error "message");
          log_error [Plain (VStr "Failed refreshing status. Waiting for recovery.");
                     Plain message];;
          log_debug [Plain error];;
          STATUS ← resolve "STATUS";
          NodeCache_del STATUS;;
          emit "error" [];;
          mret VUndef)).

Definition on_expired (l : ExpiredListener) (key : Val) : M unit :=
  match l with
  | RefreshStatus => on_expired_with getStatusFromDevice key
  end.

Fixpoint notify_expired (ls : list ExpiredListener) (key : Val) : M unit :=
  match ls with
  | [] => mret tt
  | l :: ls' => on_expired l key;; notify_expired ls' key
  end.

(** node-cache finds the entry under [k] stale: it drops the entry and
    notifies the 'expired' listeners. *)
Definition NodeCache_expire (k : string) : M unit :=
  d ← gets (fun o => data (statusCache o));
  match d !! k with
  | Some _ =>
      modify (fun o => with_statusCache (with_data (delete k (data (statusCache o))) (statusCache o)) o);;
      ls ← gets (fun o => expired_listeners (statusCache o));
      notify_expired ls (VStr k)
  | None => mret tt
  end.

(** [init] (lines 108 to 143). *)
Definition init : M Val :=
  try_catch
    (log [Plain (VStr "Initializing status...")];;
     ttl ← gets (fun o => stdTTL (statusCache o));
     log_debug [Plain (VStr "Enabling autoRefresh every %s seconds"); Plain ttl];;
     NodeCache_on_set EmitStateIfAlarm;;
     NodeCache_on_expired RefreshStatus;;
     login;;
     state ← getStatusFromDevice;
     STATUS ← resolve "STATUS";
     NodeCache_set STATUS state;;
     log_debug [Plain (VStr "ADT platform initialized"); Json state];;
     emit "init" [state];;
     mret VUndef)
    (fun error =>
       log_error [Plain (VStr "Initialization failed"); Plain error];;
       mret VUndef).

(** [f.bind(this)] for a member [f]. *)
Definition bind_this (f : Val) : Completion Val :=
  match f with
  | VUndef => Throw (cannot_read "undefined" "bind")
  | VNull => Throw (cannot_read "null" "bind")
  | VFun fname => Normal (VFun ("bound " ++ fname))
  | _ => Throw (not_a_function "this.attemptToRecoverFromFailure.bind")
  end.

(** Lines 84 to 101 of the constructor: the fields, the check of the
    credentials and the cache. *)
Definition constructor_fields (config : Val) : Completion ADT :=
  config_name ← get_prop config "name";
  config_username ← get_prop config "username";
  config_password ← get_prop config "password";
  config_cacheTTL ← get_prop config "cacheTTL";
  config_keypadPin ← get_prop config "keypadPin";
  let ttl := js_or config_cacheTTL (VNum 5) in
  if negb (truthy config_username) || negb (truthy config_password) then
    Throw missing_parameter
  else
    Normal {| name := config_name; username := config_username;
              password := config_password; cacheTTL := ttl;
              keypadPin := config_keypadPin;
              statusCache := NodeCache_new (VObj [ ("stdTTL", ttl);
                                                   ("checkperiod", VNum 1);
                                                   ("useClones", VBool false) ]);
              targetState := VUndef; token := VUndef; userId := VUndef;
              siteId := VUndef; subscribers := [] |}.

(** [new ADT(config, log)] (lines 81 to 106): the instance, if the
    constructor returns, and what happened meanwhile. *)
Definition constructor (config : Val) : Completion ADT * list Event :=
  match constructor_fields config with
  | Throw e => (Throw e, [])
  | Normal self =>
      let body : M unit :=
        log_debug [ Plain (VStr "Initializing with username=%s, password=%s, cacheTTL=%s,");
                    Plain (username self); Plain (password self); Plain (cacheTTL self) ];;
        recover ← lift (bind_this (this_prop self "attemptToRecoverFromFailure"));
        on "error" recover;;
        detach init in
      match body {| this := self; trace := [] |} with
      | (Normal _, w) => (Normal (this w), trace w)
      | (Throw e, w) => (Throw e, trace w)
      end
  end.

End Remote.

(** * Notions used to state the properties *)

(** [keeps R m]: the world after [m], however [m] completes, is related by
    [R] to the world before. *)
Definition keeps (R : relation World) {A} (m : M A) : Prop :=
  forall w, R w (snd (m w)).

(** The stored values are as before. *)
Definition same_data : relation World := fun w w' =>
  data (statusCache (this w')) = data (statusCache (this w)).

(** No further request went out. *)
Definition same_requests : relation World := fun w w' =>
  requests (trace w') = requests (trace w).

(** Whether an event is a call of [request]. *)
Definition is_request (e : Event) : bool :=
  match e with Request _ => true | _ => false end.

(** A snapshot as the accessory layer expects it. *)
Definition snapshot (armingState faultStatus : Val) : Val :=
  VObj [ ("alarm", VObj [("armingState", armingState); ("faultStatus", faultStatus)]);
         ("contactSensors", VObj []) ].

(** The world [w] with [value] stored in the cache under the key [k]. *)
Definition holding (k : string) (value : Val) (w : World) : World :=
  {| this := with_statusCache
               (with_data (<[k := value]> (data (statusCache (this w)))) (statusCache (this w)))
               (this w);
     trace := trace w |}.

(** The world [init] has reached when it calls [login]: both listeners are
    installed and two lines are logged. *)
Definition listening (w : World) : World :=
  {| this := with_statusCache
               {| stdTTL := stdTTL (statusCache (this w));
                  checkperiod := checkperiod (statusCache (this w));
                  useClones := useClones (statusCache (this w));
                  data := data (statusCache (this w));
                  set_listeners := set_listeners (statusCache (this w)) ++ [EmitStateIfAlarm];
                  expired_listeners := expired_listeners (statusCache (this w)) ++ [RefreshStatus] |}
               (this w);
     trace := trace w ++
              [ Log Info [Plain (VStr "Initializing status...")];
                Log Debug [Plain (VStr "Enabling autoRefresh every %s seconds");
                           Plain (stdTTL (statusCache (this w)))] ] |}.

(** An instance as lines 84 to 101 build it from
    [{name: 'ADT', username: 'a', password: 'b', cacheTTL: 2}], with the
    listeners of [init] installed and the session of a login (token 'T1',
    user 7). *)
Definition example_instance : ADT :=
  {| name := VStr "ADT"; username := VStr "a"; password := VStr "b";
     cacheTTL := VNum 2; keypadPin := VUndef;
     statusCache := {| stdTTL := VNum 2; checkperiod := VNum 1; useClones := VBool false;
                       data := ∅;
                       set_listeners := [EmitStateIfAlarm];
                       expired_listeners := [RefreshStatus] |};
     targetState := VUndef; token := VStr "T1"; userId := VNum 7; siteId := VUndef;
     subscribers := [] |}.

Definition example_world : World := {| this := example_instance; trace := [] |}.

(** [state.alarm], and [undefined] where reading it would throw. *)
Definition alarm_of (state : Val) : Val :=
  match get_prop state "alarm" with
  | Normal alarm => alarm
  | Throw _ => VUndef
  end.

(** [v.p], and [undefined] where reading it would throw. *)
Definition member_of (v : Val) (p : string) : Val :=
  match get_prop v p with
  | Normal x => x
  | Throw _ => VUndef
  end.

(** The cases in which [setState] goes on to line 168: nothing is cached or
    what is cached has no alarm section, or the cached arming state is not
    the requested one and the panel is not in the not-ready combination. *)
Definition reaches_issuance (status currentStatus : Val) : bool :=
  negb (truthy currentStatus)
  || negb (truthy (alarm_of currentStatus))
  || (negb (strict_eq (member_of (alarm_of currentStatus) "armingState") status)
      && negb (strict_eq (member_of (alarm_of currentStatus) "armingState") (VNum 3)
               && strict_eq (member_of (alarm_of currentStatus) "faultStatus") (VNum 1))).

(** The condition of line 115. *)
Definition notifies (state : Val) : bool :=
  truthy state && truthy (alarm_of state).

(** In the words of the specification: the alarm section is falsy or
    empty. *)
Definition alarm_falsy_or_empty (state : Val) : bool :=
  match alarm_of state with
  | VObj [] => true
  | alarm => negb (truthy alarm)
  end.

(** The object [getStatusFromDevice] builds at lines 319 to 322. *)
Definition stub_state : Val :=
  VObj [("alarm", VObj []); ("contactSensors", VObj [])].

(** [BASE_URL + '/device/getSyncInfo'] (line 210). *)
Definition syncInfoUrl : Val :=
  VStr "https://ids.trintel.co.za/Inhep-Impl-1.0-SNAPSHOT/device/getSyncInfo".

(** The error [getSyncInfo] rejects with when no site is returned: the one
    of line 235, rethrown by line 238. *)
Definition sync_failed : Val :=
  VErr Error ("Failed to retrieve sync info or save ID: " ++
              "Failed to retrieve sync info or masterSites array is empty").

(** [response.masterSites[0].id] (line 233). *)
Definition first_site_id (response : Val) : Completion Val :=
  masterSites ← get_prop response "masterSites";
  site ← get_first masterSites;
  get_prop site "id".

(** [config.p] for a configuration object with the entries [fields]. *)
Definition credential (fields : list (string * Val)) (p : string) : Val :=
  default VUndef (assoc p fields).

(** A service that answers every request with one site, number 42, and one
    that answers with no site. *)
Definition one_site : Val :=
  VObj [("status", VStr "SUCCESS"); ("masterSites", VArr [VObj [("id", VNum 42)]])].
Definition no_site : Val :=
  VObj [("status", VStr "SUCCESS"); ("masterSites", VArr [])].

(** A reply whose only site is [null]. *)
Definition null_site : Val :=
  VObj [("status", VStr "SUCCESS"); ("masterSites", VArr [VNull])].

(** The service that gives [response] to every request. *)
Definition answering (response : Val) : nat -> Val -> Completion Val :=
  fun _ _ => Normal response.

(** Login with token 'T1', then one site, number 42. *)
Definition login_then_one_site (n : nat) (options : Val) : Completion Val :=
  match n with
  | O => Normal (VObj [ ("status", VStr "SUCCESS"); ("token", VStr "T1");
                        ("user", VObj [("id", VNum 9)]) ])
  | _ => Normal one_site
  end.

(** * Further notions *)

(** Whether an event is a notification of the subscribers. *)
Definition is_emit (e : Event) : bool :=
  match e with Emit _ _ => true | _ => false end.

(** Only the session ([token], [userId], [siteId]) may differ, and no
    notification was raised. *)
Definition session_only : relation World := fun w w' =>
  name (this w') = name (this w) /\
  username (this w') = username (this w) /\
  password (this w') = password (this w) /\
  cacheTTL (this w') = cacheTTL (this w) /\
  keypadPin (this w') = keypadPin (this w) /\
  statusCache (this w') = statusCache (this w) /\
  targetState (this w') = targetState (this w) /\
  subscribers (this w') = subscribers (this w) /\
  forall event, emitted event (trace w') = emitted event (trace w).

(** [BASE_URL + LOGIN_PATH] (line 176) and the [options] of lines 177 to
    191. *)
Definition loginUrl : Val :=
  VStr "https://ids.trintel.co.za/Inhep-Impl-1.0-SNAPSHOT/auth/login".

Definition login_options (email pass : Val) : Val :=
  VObj [ ("method", VStr "GET"); ("uri", loginUrl);
         ("qs", VObj [ ("email", email); ("password", pass); ("pkg", pkg);
                       ("deviceName", VStr "iPhone"); ("_appVersionCode", VStr "415");
                       ("_appPkg", pkg); ("imei", imei); ("deviceOS", VStr "17.4.1") ]);
         ("json", VBool true) ].

(** The [options] of lines 245 to 266. *)
Definition getStateInfo_options (tok : Val) : Val :=
  VObj [ ("method", VStr "POST");
         ("uri", VStr "https://ids.trintel.co.za/Inhep-Impl-1.0-SNAPSHOT/device/getStateInfo");
         ("headers", headers);
         ("body", VObj [ ("token", tok); ("pkg", pkg); ("deviceName", VStr "iPhone");
                         ("_appVersionCode", VStr "415"); ("_appPkg", pkg);
                         ("imei", imei); ("deviceOS", VStr "17.5") ]);
         ("json", VBool true); ("gzip", VBool true) ].

(** The [options] of lines 285 to 302. *)
Definition getUserPreferences_options (tok uid sid : Val) : Val :=
  VObj [ ("method", VStr "POST");
         ("uri", VStr "https://ids.trintel.co.za/Inhep-Impl-1.0-SNAPSHOT/user/getUserPreferences");
         ("headers", headers);
         ("body", VObj [("token", tok); ("userId", uid); ("siteId", sid)]);
         ("json", VBool true); ("gzip", VBool true) ].

(** The [options] of lines 328 to 355. *)
Definition armBeamsOnly_options (tok uid sid : Val) : Val :=
  VObj [ ("method", VStr "POST");
         ("uri", VStr "https://ids.trintel.co.za/Inhep-Impl-1.0-SNAPSHOT/device/armSite");
         ("headers", headers);
         ("body", VObj [ ("token", tok); ("userId", uid); ("clientImei", imei);
                         ("arm", VBool true); ("siteId", sid);
                         ("stayProfileId", VNum 293224); ("partitionId", VNum 2261370);
                         ("pkg", pkg); ("deviceName", VStr "iPhone");
                         ("_appVersionCode", VStr "415"); ("_appPkg", pkg);
                         ("imei", imei); ("deviceOS", VStr "17.5") ]);
         ("json", VBool true); ("gzip", VBool true) ].

(** The reason a [catch] of the form
    [throw new Error(prefix + error.message)] rethrows for [error]. *)
Definition rethrown (prefix : string) (error : Val) : Val :=
  match get_prop error "message" with
  | Normal message => new_Error (js_concat (VStr prefix) message)
  | Throw t => t
  end.

(** [response.status === 'SUCCESS' && response.token] (line 195). *)
Definition login_accepts (response : Val) : Completion bool :=
  status ← get_prop response "status";
  if strict_eq status (VStr "SUCCESS") then
    tok ← get_prop response "token";
    mret (truthy tok)
  else mret false.

(** The world [w] after one more [request(options)]. *)
Definition sent (options : Val) (w : World) : World :=
  {| this := this w; trace := trace w ++ [Request options] |}.

(** A reason is wrapped under [prefix]: an [Error] whose message starts with
    [prefix], or the TypeError of reading [message] off a reason that is
    [undefined] or [null]. *)
Definition wrapped (prefix : string) (e : Val) : Prop :=
  (exists m, e = VErr Error (prefix ++ m)) \/
  e = cannot_read "undefined" "message" \/
  e = cannot_read "null" "message".

(** The reply to a login that is accepted: token 'T1', user 9. *)
Definition login_reply : Val :=
  VObj [ ("status", VStr "SUCCESS"); ("token", VStr "T1"); ("user", VObj [("id", VNum 9)]) ].

(** Login accepted, then no site. *)
Definition login_then_no_site (n : nat) (options : Val) : Completion Val :=
  match n with
  | O => Normal login_reply
  | _ => Normal no_site
  end.

(** A service that is out of reach. *)
Definition unreachable : nat -> Val -> Completion Val :=
  fun _ _ => Throw (VErr Error "ECONNREFUSED").

(** A reply that names a site but does not report success. *)
Definition failed_with_site : Val :=
  VObj [("status", VStr "FAILED"); ("masterSites", VArr [VObj [("id", VNum 42)]])].

(** The panel state the service reports, and a reply that accepts an arm
    request. *)
Definition state_reply : Val :=
  VObj [("status", VStr "SUCCESS"); ("armingState", VNum 1)].
Definition arm_reply : Val := VObj [("success", VBool true)].
Definition arm_refusal : Val := VObj [("success", VBool false)].

(** Arm accepted, then one site, then the panel state. *)
Definition arm_then_resync (n : nat) (options : Val) : Completion Val :=
  match n with
  | O => Normal arm_reply
  | S O => Normal one_site
  | _ => Normal state_reply
  end.

(** Arm accepted, then no site. *)
Definition arm_then_no_site (n : nat) (options : Val) : Completion Val :=
  match n with
  | O => Normal arm_reply
  | _ => Normal no_site
  end.

(** Arm accepted, then one site, then a state reply without success. *)
Definition arm_then_no_state (n : nat) (options : Val) : Completion Val :=
  match n with
  | O => Normal arm_reply
  | S O => Normal one_site
  | _ => Normal failed_with_site
  end.

(** The instance is as before and no notification was raised. *)
Definition silent : relation World := fun w w' =>
  this w' = this w /\ forall event, emitted event (trace w') = emitted event (trace w).

(** * The platform ([index.js], lines 1 to 69)

    The platform keeps two arrays of accessories, made at lines 9 and 10.
    [this.cachedAccessories] always refers to the second; line 31 makes
    [this.platformAccessories] refer to it too, so what is pushed through
    one name is seen through the other.  The accessory classes
    ([lib/securitySystem], [lib/contactSensor]) and the host's API are
    outside the file: they are parameters, and may throw. *)

Inductive ArrayRef := Line9Array | Line10Array.

Record Platform := {
  platform_name : Val;              (* this.name *)
  platformAccessories : ArrayRef;   (* the array this.platformAccessories refers to *)
  line9_array : list Val;
  cachedAccessories : list Val      (* the array of line 10 *)
}.

Record PWorld := {
  platform : Platform;
  ptrace : list Event
}.

Definition P (A : Type) : Type := PWorld -> Completion A * PWorld.

#[global] Instance P_ret : MRet P := fun A a w => (Normal a, w).
#[global] Instance P_bind : MBind P := fun A B f m w =>
  match m w with
  | (Normal a, w') => f a w'
  | (Throw e, w') => (Throw e, w')
  end.

Definition pthrow {A} (e : Val) : P A := fun w => (Throw e, w).
Definition plift {A} (c : Completion A) : P A := fun w => (c, w).
Definition pgets {A} (f : Platform -> A) : P A := fun w => (Normal (f (platform w)), w).
Definition pmodify (f : Platform -> Platform) : P unit := fun w =>
  (Normal tt, {| platform := f (platform w); ptrace := ptrace w |}).
Definition precord (e : Event) : P unit := fun w =>
  (Normal tt, {| platform := platform w; ptrace := ptrace w ++ [e] |}).

(** The array [this.platformAccessories] refers to. *)
Definition accessories (p : Platform) : list Val :=
  match platformAccessories p with
  | Line9Array => line9_array p
  | Line10Array => cachedAccessories p
  end.

(** [this.platformAccessories.push(x)]. *)
Definition push_platformAccessories (x : Val) (p : Platform) : Platform :=
  match platformAccessories p with
  | Line9Array =>
      {| platform_name := platform_name p; platformAccessories := Line9Array;
         line9_array := line9_array p ++ [x]; cachedAccessories := cachedAccessories p |}
  | Line10Array =>
      {| platform_name := platform_name p; platformAccessories := Line10Array;
         line9_array := line9_array p; cachedAccessories := cachedAccessories p ++ [x] |}
  end.

(** [this.cachedAccessories.push(x)]. *)
Definition push_cachedAccessories (x : Val) (p : Platform) : Platform :=
  {| platform_name := platform_name p; platformAccessories := platformAccessories p;
     line9_array := line9_array p; cachedAccessories := cachedAccessories p ++ [x] |}.

(** [this.platformAccessories = this.cachedAccessories] (line 31). *)
Definition share_cachedAccessories (p : Platform) : Platform :=
  {| platform_name := platform_name p; platformAccessories := Line10Array;
     line9_array := line9_array p; cachedAccessories := cachedAccessories p |}.

(** [l.some(cached => cached.name === rhs)], where evaluating [rhs] may
    throw: [this.name] at line 35, [sensor.name] at line 42. *)
Fixpoint some_named (rhs : Completion Val) (l : list Val) : Completion bool :=
  match l with
  | [] => mret false
  | cached :: l' =>
      cached_name ← get_prop cached "name";
      other ← rhs;
      if strict_eq cached_name other then mret true else some_named rhs l'
  end.

(** [sensors.filter(sensor => !known.some(cached => cached.name === sensor.name))]
    (line 42). *)
Fixpoint filter_unknown (known : list Val) (sensors : list Val) : Completion (list Val) :=
  match sensors with
  | [] => mret []
  | sensor :: sensors' =>
      is_known ← some_named (get_prop sensor "name") known;
      rest ← filter_unknown known sensors';
      mret (if is_known : bool then rest else sensor :: rest)
  end.

(** The members of a platform: its own fields, the three methods of lines
    17 to 63, and what [Object] provides. *)
Definition platform_prop (p : Platform) (member : string) : Val :=
  match assoc member
          [ ("log", VFun "log"); ("name", platform_name p);
            ("platformAccessories", VArr (accessories p));
            ("cachedAccessories", VArr (cachedAccessories p));
            ("api", VObj []); ("adt", VObj []) ] with
  | Some v => v
  | None =>
      if in_list member ["constructor"; "configureAccessory"; "initialize"; "updateState"]
      then VFun ("smartSecurityPlatform.prototype." ++ member)
      else if in_list member Object_prototype then VFun ("Object.prototype." ++ member)
      else VUndef
  end.

(** [f(args)] for a member [f]; [callee] is the source text of the callee. *)
Definition pcall (f : Val) (callee : string) (args : list Val) : P Val :=
  match f with
  | VFun _ => precord (Call callee args);; mret VUndef
  | _ => pthrow (not_a_function callee)
  end.

Section Externals.

(** [hap.Accessory.Categories.SECURITY_SYSTEM], or what reading it throws. *)
Variable SECURITY_SYSTEM : Completion Val.
(** [securitySystem.from(accessory, this.adt, this.log, hap)]. *)
Variable securitySystem_from : Val -> Completion Val.
(** [securitySystem.with(name, this.adt, this.log, hap, Accessory)]. *)
Variable securitySystem_with : Val -> Completion Val.
(** [contactSensor.with(sensor, this.log, hap, Accessory)]. *)
Variable contactSensor_with : Val -> Completion Val.
(** [accessory.getAccessory()]. *)
Variable getAccessory : Val -> Completion Val.
(** [this.api.registerPlatformAccessories(plugin, 'ADT', accessories)]. *)
Variable registerPlatformAccessories : list Val -> Completion Val.
(** [accessory.updateCharacteristics(state)]. *)
Variable updateCharacteristics : Val -> Val -> Completion Val.

(** [configureAccessory] (lines 17 to 28). *)
Definition configureAccessory (accessory : Val) : P Val :=
  displayName ← plift (get_prop accessory "displayName");
  precord (Log Debug [Plain (VStr "Refreshing cached accessory"); Plain displayName]);;
  category ← plift (get_prop accessory "category");
  security_system ← plift SECURITY_SYSTEM;
  if strict_eq category security_system then
    platformAccessory ← plift (securitySystem_from accessory);
    pmodify (push_cachedAccessories platformAccessory);;
    mret VUndef
  else
    pthrow (new_Error (js_concat (VStr "Cannot refresh cached accessory with category ")
                         category)).

(** The [forEach] of lines 43 to 48; it yields what it pushed on
    [newAccessories]. *)
Fixpoint add_contactSensors (sensors : list Val) : P (list Val) :=
  match sensors with
  | [] => mret []
  | sensor :: sensors' =>
      newContactSensor ← plift (contactSensor_with sensor);
      pmodify (push_platformAccessories newContactSensor);;
      rest ← add_contactSensors sensors';
      mret (newContactSensor :: rest)
  end.

(** [newAccessories.map(accessory => accessory.getAccessory())] (line 53). *)
Fixpoint map_getAccessory (l : list Val) : Completion (list Val) :=
  match l with
  | [] => mret []
  | accessory :: l' =>
      handle ← getAccessory accessory;
      rest ← map_getAccessory l';
      mret (handle :: rest)
  end.

(** [state.contactSensors.filter(..)] (lines 41 and 42): an array is
    filtered; any other value has no [filter] to call. *)
Definition unknown_sensors (contactSensors : Val) : P (list Val) :=
  match contactSensors with
  | VArr sensors =>
      known ← pgets accessories;
      plift (filter_unknown known sensors)
  | _ =>
      filter ← plift (get_prop contactSensors "filter");
      pcall filter "state.contactSensors.filter" [];;
      pthrow (cannot_read "undefined" "forEach")
  end.

(** [initialize] (lines 30 to 58). *)
Definition initialize (state : Val) : P Val :=
  pmodify share_cachedAccessories;;
  name ← pgets platform_name;
  known ← pgets accessories;
  found ← plift (some_named (Normal name) known);
  first ← (if found : bool then mret []
           else
             newSecuritySystem ← plift (securitySystem_with name);
             pmodify (push_platformAccessories newSecuritySystem);;
             mret [newSecuritySystem]);
  contactSensors ← plift (get_prop state "contactSensors");
  sensors ← unknown_sensors contactSensors;
  added ← add_contactSensors sensors;
  let newAccessories := (first ++ added)%list in
  all ← pgets accessories;
  precord (Log Info [ Plain (VStr "Initializing platform with %s accessories");
                      Plain (VNum (Z.of_nat (length all))) ]);;
  precord (Log Info [ Plain (VStr "Found %s new platform accessories");
                      Plain (VNum (Z.of_nat (length newAccessories))) ]);;
  handles ← plift (map_getAccessory newAccessories);
  precord (Call "this.api.registerPlatformAccessories"
             [VStr "homebridge-fidelity-adt-secure-home"; VStr "ADT"; VArr handles]);;
  plift (registerPlatformAccessories handles);;
  setupCameras ← pgets (fun p => platform_prop p "setupCameras");
  cameras ← plift (get_prop state "cameras");
  pcall setupCameras "this.setupCameras" [cameras];;
  precord (Call "this.adt.on" [VStr "state"; VFun "bound updateState"]);;
  mret VUndef.

(** The [forEach] of line 62. *)
Fixpoint update_each (l : list Val) (state : Val) : P unit :=
  match l with
  | [] => mret tt
  | accessory :: l' =>
      precord (Call "accessory.updateCharacteristics" [accessory; state]);;
      plift (updateCharacteristics accessory state);;
      update_each l' state
  end.

(** [updateState] (lines 60 to 63). *)
Definition updateState (state : Val) : P Val :=
  precord (Log Debug [Plain (VStr "Updating platform accessories with"); Json state]);;
  all ← pgets accessories;
  update_each all state;;
  mret VUndef.

End Externals.

(** [new smartSecurityPlatform(log, config, api)] (lines 6 to 15): the
    platform, if the constructor returns, and what happened meanwhile. *)
Definition smartSecurityPlatform (remote : nat -> Val -> Completion Val) (config : Val)
  : Completion Platform * list Event :=
  match get_prop config "name" with
  | Throw e => (Throw e, [])
  | Normal config_name =>
      match constructor remote config with
      | (Throw e, t) => (Throw e, t)
      | (Normal adt, t) =>
          (Normal {| platform_name := config_name; platformAccessories := Line9Array;
                     line9_array := []; cachedAccessories := [] |},
           (t ++ [Call "this.adt.on" [VStr "init"; VFun "bound initialize"]])%list)
      end
  end.

(** The calls of [this.adt.on] among the events. *)
Definition subscriptions (t : list Event) : list (list Val) :=
  omap (fun e => match e with
                 | Call callee args =>
                     if String.eqb callee "this.adt.on" then Some args else None
                 | _ => None
                 end) t.

(** The accessories whose [updateCharacteristics] was called, in order. *)
Definition updated (t : list Event) : list Val :=
  omap (fun e => match e with
                 | Call callee (accessory :: _) =>
                     if String.eqb callee "accessory.updateCharacteristics"
                     then Some accessory else None
                 | _ => None
                 end) t.

(** [pkeeps R m]: as [keeps], for the platform. *)
Definition pkeeps (R : relation PWorld) {A} (m : P A) : Prop :=
  forall w, R w (snd (m w)).

(** [aborts m]: [m] throws, whatever the world. *)
Definition aborts {A} (m : P A) : Prop :=
  forall w, exists e, fst (m w) = Throw e.

(** What the steps of [initialize] keep once the arrays are shared: nobody
    gets subscribed, the name and the array of line 9 are as they were, the
    arrays stay shared, and the array of line 10 has grown at its end, if at
    all. *)
Definition grown : relation PWorld := fun w w' =>
  platformAccessories (platform w) = Line10Array ->
  subscriptions (ptrace w') = subscriptions (ptrace w) /\
  platform_name (platform w') = platform_name (platform w) /\
  line9_array (platform w') = line9_array (platform w) /\
  platformAccessories (platform w') = Line10Array /\
  exists more, cachedAccessories (platform w') = (cachedAccessories (platform w) ++ more)%list.

(** A platform with one restored accessory, before [initialize]. *)
Definition example_platform : PWorld :=
  {| platform := {| platform_name := VStr "ADT"; platformAccessories := Line9Array;
                    line9_array := [];
                    cachedAccessories := [VObj [("name", VStr "ADT")]] |};
     ptrace := [] |}.

(** Accessory classes that wrap what they are given, a host that accepts
    every registration, category 11 for security systems, and accessories
    that take every update unless they are named 'broken'. *)
Definition wrap (x : Val) : Completion Val := Normal (VObj [("name", x)]).
Definition accept_registration (handles : list Val) : Completion Val := Normal VUndef.
Definition category_11 : Completion Val := Normal (VNum 11).
Definition update_unless_broken (accessory state : Val) : Completion Val :=
  if strict_eq (member_of accessory "name") (VStr "broken")
  then Throw (VErr Error "broken") else Normal VUndef.

(** A platform whose shared array holds three accessories, the second of
    which is broken. *)
Definition three_accessories : PWorld :=
  {| platform := {| platform_name := VStr "ADT"; platformAccessories := Line10Array;
                    line9_array := [];
                    cachedAccessories := [ VObj [("name", VStr "ADT")];
                                           VObj [("name", VStr "broken")];
                                           VObj [("name", VStr "Door")] ] |};
     ptrace := [] |}.

(** A platform whose shared array holds two accessories in working order. *)
Definition two_accessories : PWorld :=
  {| platform := {| platform_name := VStr "ADT"; platformAccessories := Line10Array;
                    line9_array := [];
                    cachedAccessories := [ VObj [("name", VStr "ADT")];
                                           VObj [("name", VStr "Door")] ] |};
     ptrace := [] |}.

(** * Properties *)

(** ** Running a computation *)

Lemma run_bind {A B} (m : M A) (f : A -> M B) (w : World) :
  (m ≫= f) w =
  match m w with
  | (Normal a, w') => f a w'
  | (Throw e, w') => (Throw e, w')
  end.
Proof. reflexivity. Qed.

Lemma emitted_app (event : string) (t1 t2 : list Event) :
  emitted event (t1 ++ t2) = (emitted event t1 ++ emitted event t2)%list.
Proof.
  induction t1 as [|e t1 IH]; [reflexivity|].
  cbn. destruct e; cbn; try apply IH.
  destruct (String.eqb event0 event); cbn; [f_equal|]; apply IH.
Qed.

Lemma requests_app (t1 t2 : list Event) :
  requests (t1 ++ t2) = (requests t1 ++ requests t2)%list.
Proof.
  induction t1 as [|e t1 IH]; [reflexivity|].
  cbn. destruct e; cbn; try apply IH. f_equal. apply IH.
Qed.

(** ** Frames: what a computation leaves as it found it *)

Section Frame.

Context (R : relation World) `{!PreOrder R}.

Lemma keeps_mret {A} (a : A) : keeps R (mret a).
Proof. intros w. reflexivity. Qed.

Lemma keeps_throw {A} (e : Val) : keeps R (@throw A e).
Proof. intros w. reflexivity. Qed.

Lemma keeps_lift {A} (c : Completion A) : keeps R (lift c).
Proof. intros w. reflexivity. Qed.

Lemma keeps_gets {A} (f : ADT -> A) : keeps R (gets f).
Proof. intros w. reflexivity. Qed.

Lemma keeps_resolve (x : string) : keeps R (resolve x).
Proof. intros w. unfold resolve. destruct (assoc x module_scope); reflexivity. Qed.

Lemma keeps_bind {A B} (m : M A) (f : A -> M B) :
  keeps R m -> (forall a, keeps R (f a)) -> keeps R (m ≫= f).
Proof.
  intros Hm Hf w. rewrite run_bind. specialize (Hm w).
  destruct (m w) as [[a|e] w']; cbn in *; [|exact Hm].
  transitivity w'; [exact Hm | apply Hf].
Qed.

Lemma keeps_try_catch {A} (body : M A) (handler : Val -> M A) :
  keeps R body -> (forall e, keeps R (handler e)) -> keeps R (try_catch body handler).
Proof.
  intros Hb Hh w. unfold try_catch. specialize (Hb w).
  destruct (body w) as [[a|e] w']; cbn in *; [exact Hb|].
  transitivity w'; [exact Hb | apply Hh].
Qed.

Lemma keeps_record (e : Event) :
  (forall w, R w {| this := this w; trace := trace w ++ [e] |}) -> keeps R (record e).
Proof. intros H w. apply H. Qed.

Lemma keeps_modify (f : ADT -> ADT) :
  (forall w, R w {| this := f (this w); trace := trace w |}) -> keeps R (modify f).
Proof. intros H w. apply H. Qed.

Lemma keeps_detach {A} (p : M A) :
  (forall e w, R w {| this := this w; trace := trace w ++ [UnhandledRejection e] |}) ->
  keeps R p -> keeps R (detach p).
Proof.
  intros Hu Hp w. unfold detach. specialize (Hp w).
  destruct (p w) as [[a|e] w']; cbn in *; [exact Hp|].
  transitivity w'; [exact Hp | apply Hu].
Qed.

End Frame.

(** ** What the methods leave untouched *)

#[global] Instance same_data_preorder : PreOrder same_data.
Proof. split; unfold same_data; [intros w | intros w1 w2 w3]; congruence. Qed.

#[global] Instance same_requests_preorder : PreOrder same_requests.
Proof. split; unfold same_requests; [intros w | intros w1 w2 w3]; congruence. Qed.

Lemma keeps_throw_bind (R : relation World) `{!PreOrder R} {A B} (e : Val) (f : A -> M B) :
  keeps R (throw e ≫= f).
Proof. intros w. reflexivity. Qed.

Lemma record_keeps_requests (e : Event) :
  is_request e = false -> keeps same_requests (record e).
Proof.
  intros He w. unfold same_requests, record. cbn.
  rewrite requests_app. destruct e; try discriminate; cbn; apply app_nil_r.
Qed.

Lemma call_keeps_requests (f : Val) (callee : string) (args : list Val) :
  keeps same_requests (call f callee args).
Proof.
  destruct f; try (apply keeps_throw; apply _).
  unfold call. apply keeps_bind; [apply _ | | intros ?].
  - now apply record_keeps_requests.
  - apply keeps_mret; apply _.
Qed.

Ltac frame_step :=
  lazymatch goal with
  | |- keeps _ (throw _ ≫= _) => apply keeps_throw_bind; apply _
  | |- keeps _ (_ ≫= _) => apply keeps_bind; [apply _ | | intros ?]
  | |- keeps _ (try_catch _ _) => apply keeps_try_catch; [apply _ | | intros ?]
  | |- keeps _ (mret _) => apply keeps_mret; apply _
  | |- keeps _ (throw _) => apply keeps_throw; apply _
  | |- keeps _ (lift _) => apply keeps_lift; apply _
  | |- keeps _ (gets _) => apply keeps_gets; apply _
  | |- keeps _ (resolve _) => apply keeps_resolve; apply _
  | |- keeps same_requests (record _) => apply record_keeps_requests; reflexivity
  | |- keeps same_requests (call _ _ _) => apply call_keeps_requests
  | |- keeps _ (record _) => apply keeps_record; intros ?; reflexivity
  | |- keeps _ (modify _) => apply keeps_modify; intros ?; reflexivity
  | |- keeps _ (if ?b then _ else _) => destruct b
  end.

Ltac frame := repeat frame_step.

Lemma request_keeps_data remote options : keeps same_data (request remote options).
Proof. intros w. reflexivity. Qed.

Lemma getSyncInfo_keeps_data remote : keeps same_data (getSyncInfo remote).
Proof.
  unfold getSyncInfo.
  repeat first [ frame_step | exact (request_keeps_data _ _) ].
Qed.

Lemma login_keeps_data remote : keeps same_data (login remote).
Proof.
  unfold login, log_debug.
  repeat first [ frame_step
               | exact (request_keeps_data _ _)
               | exact (getSyncInfo_keeps_data _) ].
Qed.

Lemma init_keeps_data remote : keeps same_data (init remote).
Proof.
  unfold init, getStatusFromDevice, log, log_debug, log_error,
    NodeCache_on_set, NodeCache_on_expired.
  change (resolve "STATUS") with (@throw Val (not_defined "STATUS")).
  repeat first [ frame_step | exact (login_keeps_data _) ].
Qed.

Lemma setState_dispatch_keeps_requests status currentStatus :
  keeps same_requests (setState_dispatch status currentStatus).
Proof.
  unfold setState_dispatch, log, log_debug, log_error. frame.
Qed.

(** ** Worlds used to state the properties *)

(** ** The undeclared identifier [STATUS] *)

Lemma resolve_STATUS (w : World) :
  resolve "STATUS" w = (Throw (not_defined "STATUS"), w).
Proof. reflexivity. Qed.

Lemma init_unfold remote (w : World) :
  init remote w =
  match login remote (listening w) with
  | (Normal _, w') =>
      (Normal VUndef,
       {| this := this w';
          trace := trace w' ++ [Log Err [Plain (VStr "Initialization failed");
                                         Plain (not_defined "STATUS")]] |})
  | (Throw e, w') =>
      (Normal VUndef,
       {| this := this w';
          trace := trace w' ++ [Log Err [Plain (VStr "Initialization failed"); Plain e]] |})
  end.
Proof.
  unfold init, try_catch, listening, mbind, M_bind. cbn -[login].
  rewrite <- app_assoc. cbn -[login].
  destruct (login remote _) as [[v|e] w']; reflexivity.
Qed.

Lemma on_expired_unfold (key : Val) (w : World) :
  on_expired RefreshStatus key w =
  (Normal tt,
   {| this := this w;
      trace := trace w ++
               [ Log Debug [Plain (js_concat key (VStr " expired"))];
                 Log Err [Plain (VStr "Failed refreshing status. Waiting for recovery.");
                          Plain (VStr "STATUS is not defined")];
                 Log Debug [Plain (not_defined "STATUS")];
                 UnhandledRejection (not_defined "STATUS") ] |}).
Proof.
  unfold on_expired, on_expired_with, detach, try_catch, mbind, M_bind. cbn.
  rewrite <- !app_assoc. reflexivity.
Qed.

(** C9. [STATUS] is bound nowhere, so every access to the cache slot throws
    a ReferenceError before it reaches the cache: [getState] always throws;
    [init], once [login] is through, ends in its [catch] with that error and
    the cache unseeded; the 'expired' listener fails at its [set], then at
    the [del] of its own [catch], which leaves the rejection unhandled. *)
Theorem STATUS_is_not_defined :
  assoc "STATUS" module_scope = None /\
  (forall w, getState w = (Throw (not_defined "STATUS"), w)) /\
  (forall remote w,
     init remote w =
     match login remote (listening w) with
     | (Normal _, w') =>
         (Normal VUndef,
          {| this := this w';
             trace := trace w' ++ [Log Err [Plain (VStr "Initialization failed");
                                            Plain (not_defined "STATUS")]] |})
     | (Throw e, w') =>
         (Normal VUndef,
          {| this := this w';
             trace := trace w' ++ [Log Err [Plain (VStr "Initialization failed"); Plain e]] |})
     end) /\
  (forall remote w, same_data w (snd (init remote w))) /\
  (forall key w,
     on_expired RefreshStatus key w =
     (Normal tt,
      {| this := this w;
         trace := trace w ++
                  [ Log Debug [Plain (js_concat key (VStr " expired"))];
                    Log Err [Plain (VStr "Failed refreshing status. Waiting for recovery.");
                             Plain (VStr "STATUS is not defined")];
                    Log Debug [Plain (not_defined "STATUS")];
                    UnhandledRejection (not_defined "STATUS") ] |})).
Proof.
  split; [reflexivity|].
  split; [reflexivity|].
  split.
  - apply init_unfold.
  - split; [intros remote w; apply init_keeps_data | apply on_expired_unfold].
Qed.

(** C1. [getStatusFromDevice] fulfils with [undefined] on every call: it
    yields no snapshot and it never rejects.  The cache keeps the values it
    had: [init] does not store what it fetched. *)
Theorem getStatusFromDevice_yields_undefined :
  (forall w, getStatusFromDevice w = (Normal VUndef, w)) /\
  (forall remote w,
     data (statusCache (this (snd (init remote w)))) = data (statusCache (this w))).
Proof.
  split; [reflexivity|]. intros remote w. exact (init_keeps_data remote w).
Qed.

(** ** [setState] *)

(** Lines 154 to 159, had the cache been read: nothing to do. *)
Lemma setState_dispatch_already_there (s : Z) (faultStatus : Val) (w : World) :
  setState_dispatch (VNum s) (snapshot (VNum s) faultStatus) w =
  (Normal VNull,
   {| this := with_targetState VUndef (this w);
      trace := trace w ++ [Log Debug [Plain (VStr "No status change needed")]] |}).
Proof.
  unfold setState_dispatch, snapshot, mbind, M_bind. cbn -[Z.eqb].
  rewrite Z.eqb_refl. reflexivity.
Qed.

(** Lines 160 to 165, had the cache been read: the panel is not ready. *)
Lemma setState_dispatch_not_ready (s : Z) (w : World) :
  s <> 3 ->
  setState_dispatch (VNum s) (snapshot (VNum 3) (VNum 1)) w =
  (Normal not_ready,
   {| this := with_targetState VUndef (this w);
      trace := trace w ++ [Log Err [Plain (VStr "Can't arm system. System is not ready.")]] |}).
Proof.
  intros Hs. unfold setState_dispatch, snapshot, mbind, M_bind. cbn -[Z.eqb].
  destruct (Z.eqb_spec 3 s) as [E|_]; [now subst|]. reflexivity.
Qed.

Lemma truthy_get_prop (v : Val) (p : string) :
  truthy v = true -> get_prop v p = Normal (member_of v p).
Proof.
  unfold member_of. destruct v; cbn; try discriminate; intros _;
    repeat match goal with |- context [if ?b then _ else _] => destruct b end;
    reflexivity.
Qed.

(** Lines 168 and 169: the method is looked up, not found, and the call
    throws. *)
Lemma setState_dispatch_issue (status currentStatus : Val) (w : World) :
  reaches_issuance status currentStatus = true ->
  setState_dispatch status currentStatus w =
  (Throw (not_a_function "this.sendStateToDevice"),
   {| this := this w;
      trace := trace w ++ [Log Info [Plain (VStr "Setting status to"); Plain status]] |}).
Proof.
  unfold reaches_issuance, setState_dispatch. intros H.
  destruct (truthy currentStatus) eqn:Hc; cbn in H; [|reflexivity].
  unfold mbind at 1, M_bind at 1, lift at 1.
  rewrite (truthy_get_prop _ "alarm" Hc).
  unfold alarm_of in H. rewrite (truthy_get_prop _ "alarm" Hc) in H.
  destruct (truthy (member_of currentStatus "alarm")) eqn:Ha; cbn in H; [|reflexivity].
  unfold mbind at 1, M_bind at 1, lift at 1.
  rewrite (truthy_get_prop _ "armingState" Ha).
  destruct (strict_eq (member_of (member_of currentStatus "alarm") "armingState") status);
    cbn in H; [discriminate|].
  destruct (strict_eq (member_of (member_of currentStatus "alarm") "armingState") (VNum 3));
    cbn in H.
  - unfold mbind at 1, M_bind at 1, lift at 1.
    rewrite (truthy_get_prop _ "faultStatus" Ha).
    destruct (strict_eq (member_of (member_of currentStatus "alarm") "faultStatus") (VNum 1));
      [discriminate | reflexivity].
  - reflexivity.
Qed.

(** C7. [setState] records the requested state and throws at the read of the
    cache, on every call: the request marker stays as set. *)
Theorem setState_leaves_targetState (status : Val) (w : World) :
  setState status w =
  (Throw (not_defined "STATUS"),
   {| this := with_targetState status (this w); trace := trace w |}) /\
  targetState (this (snd (setState status w))) = status.
Proof. split; reflexivity. Qed.

(** C2. With the requested state [s] already cached as the arming state,
    [setState(s)] still throws the ReferenceError: it does not return
    [null], and the target state stays [s].  No request goes out. *)
Theorem setState_already_there_throws (s : Z) (faultStatus : Val) (k : string) (w : World) :
  data (statusCache (this (holding k (snapshot (VNum s) faultStatus) w))) !! k
  = Some (snapshot (VNum s) faultStatus) /\
  member_of (alarm_of (snapshot (VNum s) faultStatus)) "armingState" = VNum s /\
  fst (setState (VNum s) (holding k (snapshot (VNum s) faultStatus) w))
  = Throw (not_defined "STATUS") /\
  targetState (this (snd (setState (VNum s) (holding k (snapshot (VNum s) faultStatus) w))))
  = VNum s /\
  requests (trace (snd (setState (VNum s) (holding k (snapshot (VNum s) faultStatus) w))))
  = requests (trace w).
Proof.
  split; [apply lookup_insert_eq|]. repeat split; reflexivity.
Qed.

(** C3. With the panel cached as not ready (arming state 3, fault status 1),
    [setState] throws the ReferenceError for whatever state is requested: it
    returns no error value, and the target state stays as requested.  No
    request goes out. *)
Theorem setState_not_ready_throws (status : Val) (k : string) (w : World) :
  data (statusCache (this (holding k (snapshot (VNum 3) (VNum 1)) w))) !! k
  = Some (snapshot (VNum 3) (VNum 1)) /\
  fst (setState status (holding k (snapshot (VNum 3) (VNum 1)) w))
  = Throw (not_defined "STATUS") /\
  targetState (this (snd (setState status (holding k (snapshot (VNum 3) (VNum 1)) w))))
  = status /\
  requests (trace (snd (setState status (holding k (snapshot (VNum 3) (VNum 1)) w))))
  = requests (trace w).
Proof.
  split; [apply lookup_insert_eq|]. repeat split; reflexivity.
Qed.

(** C10. [sendStateToDevice] is no member of an instance.  Wherever
    [setState] would issue the command, the call throws a TypeError after
    the log line; and no call of [setState], and no way through its
    dispatch, sends a request. *)
Theorem setState_never_issues_command :
  (forall o, this_prop o "sendStateToDevice" = VUndef) /\
  (forall status currentStatus w,
     reaches_issuance status currentStatus = true ->
     setState_dispatch status currentStatus w =
     (Throw (not_a_function "this.sendStateToDevice"),
      {| this := this w;
         trace := trace w ++ [Log Info [Plain (VStr "Setting status to"); Plain status]] |})) /\
  (forall status currentStatus w,
     requests (trace (snd (setState_dispatch status currentStatus w))) = requests (trace w)) /\
  (forall status w, requests (trace (snd (setState status w))) = requests (trace w)).
Proof.
  split; [reflexivity|].
  split; [exact setState_dispatch_issue|].
  split; [|reflexivity].
  intros status currentStatus w. exact (setState_dispatch_keeps_requests status currentStatus w).
Qed.

Lemma setState_never_issues_command_witness :
  reaches_issuance (VNum 1) (snapshot (VNum 0) (VNum 0)) = true /\
  setState_dispatch (VNum 1) (snapshot (VNum 0) (VNum 0)) example_world =
  (Throw (not_a_function "this.sendStateToDevice"),
   {| this := this example_world;
      trace := trace example_world ++
               [Log Info [Plain (VStr "Setting status to"); Plain (VNum 1)]] |}).
Proof.
  split; [reflexivity|].
  apply (proj1 (proj2 setState_never_issues_command)). reflexivity.
Defined.

(** ** The 'expired' listener *)

Lemma on_expired_with_failure (e : Val) (key : Val) (w : World) :
  on_expired_with (throw e) key w =
  (Normal tt,
   {| this := this w;
      trace := trace w ++
               Log Debug [Plain (js_concat key (VStr " expired"))] ::
               match get_prop e "message" with
               | Normal message =>
                   [ Log Err [Plain (VStr "Failed refreshing status. Waiting for recovery.");
                              Plain message];
                     Log Debug [Plain e];
                     UnhandledRejection (not_defined "STATUS") ]
               | Throw t => [UnhandledRejection t]
               end |}).
Proof.
  unfold on_expired_with, detach, try_catch, mbind, M_bind. cbn.
  destruct (get_prop e "message") as [message|t]; cbn;
    rewrite <- !app_assoc; reflexivity.
Qed.

(** C5. When the fetch of an expiry-driven refresh fails, the [catch] of
    lines 124 to 129 throws at [del(STATUS)]: no 'error' event is raised
    (and no 'state' event), the instance is as before, and the rejection is
    left unhandled.  The same holds for the listener as installed, whose
    refresh fails at [set(STATUS, ..)]. *)
Theorem failed_refresh_raises_no_error_event :
  (forall e key w,
     emitted "error" (trace (snd (on_expired_with (throw e) key w))) = emitted "error" (trace w) /\
     emitted "state" (trace (snd (on_expired_with (throw e) key w))) = emitted "state" (trace w) /\
     this (snd (on_expired_with (throw e) key w)) = this w /\
     exists reason,
       last (trace (snd (on_expired_with (throw e) key w))) = Some (UnhandledRejection reason)) /\
  (forall key w,
     emitted "error" (trace (snd (on_expired RefreshStatus key w))) = emitted "error" (trace w) /\
     emitted "state" (trace (snd (on_expired RefreshStatus key w))) = emitted "state" (trace w) /\
     this (snd (on_expired RefreshStatus key w)) = this w /\
     last (trace (snd (on_expired RefreshStatus key w)))
     = Some (UnhandledRejection (not_defined "STATUS"))).
Proof.
  split.
  - intros e key w. rewrite on_expired_with_failure. cbn [snd trace this].
    rewrite !emitted_app.
    destruct (get_prop e "message") as [message|t]; cbn; rewrite !app_nil_r;
      (repeat split; eexists; rewrite last_app; reflexivity).
  - intros key w. rewrite on_expired_unfold. cbn [snd trace this].
    rewrite !emitted_app. cbn. rewrite !app_nil_r. repeat split.
    rewrite last_app. reflexivity.
Qed.

(** ** Notification on [set] *)

(** C4, as amended.  A [set] on the cache stores the value under its key,
    and raises one 'state' event, carrying the value, exactly when the value
    and its alarm section are truthy; an empty object is truthy. *)
Theorem cache_set_notifies_iff_truthy_alarm (k : string) (value : Val) (w : World) :
  set_listeners (statusCache (this w)) = [EmitStateIfAlarm] ->
  fst (NodeCache_set (VStr k) value w) = Normal (VBool true) /\
  data (statusCache (this (snd (NodeCache_set (VStr k) value w)))) !! k = Some value /\
  emitted "state" (trace (snd (NodeCache_set (VStr k) value w)))
  = (emitted "state" (trace w) ++ (if notifies value then [[value]] else []))%list.
Proof.
  intros Hl. unfold NodeCache_set, notifies, mbind, M_bind. cbn -[emitted].
  rewrite Hl. cbn -[emitted]. unfold mbind, M_bind.
  destruct (truthy value) eqn:Hv; cbn -[emitted].
  - unfold alarm_of. rewrite (truthy_get_prop _ "alarm" Hv). cbn -[emitted].
    destruct (truthy (member_of value "alarm")); unfold emit, mbind, M_bind;
      cbn -[emitted];
      (split; [reflexivity|]; split; [apply lookup_insert_eq|]).
    + rewrite emitted_app. reflexivity.
    + now rewrite app_nil_r.
  - split; [reflexivity|]. split; [apply lookup_insert_eq|]. now rewrite app_nil_r.
Qed.

Lemma cache_set_notifies_iff_truthy_alarm_witness :
  set_listeners (statusCache (this example_world)) = [EmitStateIfAlarm] /\
  emitted "state" (trace (snd (NodeCache_set (VStr "status") (snapshot (VNum 1) (VNum 0))
                                 example_world)))
  = [[snapshot (VNum 1) (VNum 0)]].
Proof.
  split; [reflexivity|].
  exact (proj2 (proj2 (cache_set_notifies_iff_truthy_alarm
                         "status" (snapshot (VNum 1) (VNum 0)) example_world eq_refl))).
Defined.

(** C4, as the specification has it, fails on the stub: its alarm section is
    empty, it is stored, and the 'state' event is raised. *)
Lemma stub_alarm_is_notified :
  alarm_falsy_or_empty stub_state = true /\
  data (statusCache (this (snd (NodeCache_set (VStr "status") stub_state example_world))))
    !! "status" = Some stub_state /\
  emitted "state" (trace example_world) = [] /\
  emitted "state" (trace (snd (NodeCache_set (VStr "status") stub_state example_world)))
  = [[stub_state]].
Proof.
  split; [reflexivity|]. split; [apply lookup_insert_eq|]. split; reflexivity.
Qed.

(** ** [getSyncInfo] *)

Lemma getSyncInfo_unfold remote (w : World) :
  getSyncInfo remote w =
  let options := getSyncInfo_options syncInfoUrl (token (this w)) in
  let sent := {| this := this w; trace := trace w ++ [Request options] |} in
  let fail (error : Val) :=
    match get_prop error "message" with
    | Normal message =>
        (Throw (new_Error (js_concat (VStr "Failed to retrieve sync info or save ID: ") message)),
         sent)
    | Throw t => (Throw t, sent)
    end in
  match remote (length (requests (trace w))) options with
  | Throw reason => fail reason
  | Normal response =>
      match has_master_site response with
      | Throw t => fail t
      | Normal false =>
          fail (VErr Error "Failed to retrieve sync info or masterSites array is empty")
      | Normal true =>
          match first_site_id response with
          | Normal id =>
              (Normal VUndef,
               {| this := with_siteId id (this w); trace := trace w ++ [Request options] |})
          | Throw t => fail t
          end
      end
  end.
Proof.
  unfold getSyncInfo.
  change (js_concat (VStr _) (VStr "/device/getSyncInfo")) with syncInfoUrl.
  unfold request, try_catch, record, lift, modify, gets, throw, mbind, M_bind, mret, M_ret.
  cbn [resolve assoc module_scope String.eqb Ascii.eqb Bool.eqb mret M_ret fst snd this trace].
  destruct (remote _ _) as [response|reason]; [|reflexivity].
  destruct (has_master_site response) as [[|]|t]; try reflexivity.
  unfold first_site_id, mbind, Completion_bind.
  destruct (get_prop response "masterSites") as [sites|t]; [|reflexivity].
  destruct (get_first sites) as [site|t]; [|reflexivity].
  destruct (get_prop site "id") as [id|t]; reflexivity.
Qed.

(** However [getSyncInfo] is rejected, the instance is as it was. *)
Lemma getSyncInfo_rejected_unchanged remote (w : World) (e : Val) :
  fst (getSyncInfo remote w) = Throw e -> this (snd (getSyncInfo remote w)) = this w.
Proof.
  rewrite getSyncInfo_unfold. cbv zeta.
  destruct (remote _ _) as [response|reason].
  - destruct (has_master_site response) as [[|]|t].
    + destruct (first_site_id response) as [id|t]; [discriminate|].
      destruct (get_prop t "message"); reflexivity.
    + reflexivity.
    + destruct (get_prop t "message"); reflexivity.
  - destruct (get_prop reason "message"); reflexivity.
Qed.

Lemma get_prop_defined (v : Val) (p : string) (x : Val) (q : string) :
  get_prop v p = Normal x -> get_prop v q = Normal (member_of v q).
Proof.
  unfold member_of. destruct v; cbn; try discriminate; intros _;
    repeat match goal with |- context [if ?b then _ else _] => destruct b end;
    reflexivity.
Qed.

Lemma js_gt_length_cons (site : Val) (rest : list Val) :
  js_gt (VNum (Z.of_nat (length (site :: rest)))) (VNum 0) = true.
Proof. unfold js_gt, to_number. apply Z.ltb_lt. rewrite length_cons. lia. Qed.

Lemma get_prop_not_nullish (v : Val) (p : string) :
  v <> VUndef -> v <> VNull -> get_prop v p = Normal (member_of v p).
Proof.
  intros Hu Hn. unfold member_of. destruct v; try contradiction; cbn;
    repeat match goal with |- context [if ?b then _ else _] => destruct b end;
    reflexivity.
Qed.

(** C6, as amended.  Let [response] be the reply to the sync-info request.
    If its status is 'SUCCESS' and its [masterSites] is an array whose first
    entry is neither [undefined] nor [null], [getSyncInfo] fulfils and
    [siteId] is that entry's [id].  If the first entry is [undefined] or
    [null], reading its [id] at line 233 throws: [getSyncInfo] rejects with
    that TypeError's message under the sync prefix, and the instance is as
    before.  If [masterSites] is absent or the empty array, [getSyncInfo]
    rejects with the sync error and the instance, [siteId] included, is as
    before. *)
Theorem getSyncInfo_siteId remote (w : World) (response : Val) :
  remote (length (requests (trace w))) (getSyncInfo_options syncInfoUrl (token (this w)))
  = Normal response ->
  (forall site rest,
     get_prop response "status" = Normal (VStr "SUCCESS") ->
     get_prop response "masterSites" = Normal (VArr (site :: rest)) ->
     site <> VUndef -> site <> VNull ->
     fst (getSyncInfo remote w) = Normal VUndef /\
     this (snd (getSyncInfo remote w)) = with_siteId (member_of site "id") (this w) /\
     siteId (this (snd (getSyncInfo remote w))) = member_of site "id") /\
  (forall site rest,
     get_prop response "status" = Normal (VStr "SUCCESS") ->
     get_prop response "masterSites" = Normal (VArr (site :: rest)) ->
     site = VUndef \/ site = VNull ->
     fst (getSyncInfo remote w)
     = Throw (VErr Error ("Failed to retrieve sync info or save ID: " ++
                          "Cannot read properties of " ++ to_string site ++
                          " (reading 'id')")) /\
     this (snd (getSyncInfo remote w)) = this w) /\
  (get_prop response "masterSites" = Normal VUndef \/
   get_prop response "masterSites" = Normal (VArr []) ->
   fst (getSyncInfo remote w) = Throw sync_failed /\
   this (snd (getSyncInfo remote w)) = this w).
Proof.
  intros Hreply. rewrite getSyncInfo_unfold. cbv zeta. rewrite Hreply.
  assert (forall site rest,
            get_prop response "status" = Normal (VStr "SUCCESS") ->
            get_prop response "masterSites" = Normal (VArr (site :: rest)) ->
            has_master_site response = Normal true /\
            first_site_id response = get_prop site "id") as Hfirst.
  { intros site rest Hstatus Hsites.
    unfold has_master_site, first_site_id, mbind, Completion_bind.
    rewrite Hstatus. cbn [strict_eq String.eqb Ascii.eqb Bool.eqb].
    rewrite Hsites. cbn [truthy get_prop String.eqb Ascii.eqb Bool.eqb].
    rewrite js_gt_length_cons. split; reflexivity. }
  split; [|split].
  - intros site rest Hstatus Hsites Hu Hn.
    destruct (Hfirst site rest Hstatus Hsites) as [-> ->].
    rewrite (get_prop_not_nullish site "id" Hu Hn). repeat split.
  - intros site rest Hstatus Hsites Hnullish.
    destruct (Hfirst site rest Hstatus Hsites) as [-> ->].
    destruct Hnullish as [-> | ->]; split; reflexivity.
  - intros Hsites.
    assert (has_master_site response = Normal false) as ->; [|split; reflexivity].
    unfold has_master_site, mbind, Completion_bind.
    assert (get_prop response "status" = Normal (member_of response "status")) as ->.
    { destruct Hsites as [H|H]; exact (get_prop_defined _ _ _ "status" H). }
    destruct (strict_eq _ _); [|reflexivity].
    destruct Hsites as [-> | ->]; reflexivity.
Qed.

Lemma getSyncInfo_siteId_witness :
  (fst (getSyncInfo (answering one_site) example_world) = Normal VUndef /\
   this (snd (getSyncInfo (answering one_site) example_world))
   = with_siteId (VNum 42) (this example_world) /\
   siteId (this (snd (getSyncInfo (answering one_site) example_world))) = VNum 42) /\
  (fst (getSyncInfo (answering null_site) example_world)
   = Throw (VErr Error ("Failed to retrieve sync info or save ID: " ++
                        "Cannot read properties of null (reading 'id')")) /\
   this (snd (getSyncInfo (answering null_site) example_world)) = this example_world) /\
  (fst (getSyncInfo (answering no_site) example_world) = Throw sync_failed /\
   this (snd (getSyncInfo (answering no_site) example_world)) = this example_world).
Proof.
  split; [|split].
  - apply (proj1 (getSyncInfo_siteId (answering one_site) example_world one_site eq_refl)
             (VObj [("id", VNum 42)]) []); [reflexivity | reflexivity | discriminate..].
  - apply (proj1 (proj2 (getSyncInfo_siteId (answering null_site) example_world null_site
                           eq_refl))
             VNull []); [reflexivity | reflexivity | right; reflexivity].
  - apply (proj2 (proj2 (getSyncInfo_siteId (answering no_site) example_world no_site
                           eq_refl))).
    right. reflexivity.
Defined.

(** C6, as the specification has it, fails on a reply whose status is
    'SUCCESS' and whose [masterSites] is the non-empty array [[null]]: the
    test of line 232 passes, line 233 throws, and [getSyncInfo] rejects with
    the site's id still unset. *)
Lemma null_first_site_is_rejected :
  get_prop null_site "status" = Normal (VStr "SUCCESS") /\
  get_prop null_site "masterSites" = Normal (VArr [VNull]) /\
  has_master_site null_site = Normal true /\
  siteId (this example_world) = VUndef /\
  fst (getSyncInfo (answering null_site) example_world)
  = Throw (VErr Error ("Failed to retrieve sync info or save ID: " ++
                       "Cannot read properties of null (reading 'id')")) /\
  siteId (this (snd (getSyncInfo (answering null_site) example_world))) = VUndef.
Proof. repeat split. Qed.

(** ** The constructor *)

Lemma get_prop_VObj (fields : list (string * Val)) (p : string) :
  get_prop (VObj fields) p = Normal (credential fields p).
Proof. reflexivity. Qed.

(** With both credentials truthy the constructor gets as far as line 103,
    where [this.attemptToRecoverFromFailure] is [undefined]. *)
Lemma constructor_throws_at_bind remote (fields : list (string * Val)) :
  truthy (credential fields "username") = true ->
  truthy (credential fields "password") = true ->
  constructor remote (VObj fields) =
  (Throw (cannot_read "undefined" "bind"),
   [Log Debug [ Plain (VStr "Initializing with username=%s, password=%s, cacheTTL=%s,");
                Plain (credential fields "username");
                Plain (credential fields "password");
                Plain (js_or (credential fields "cacheTTL") (VNum 5)) ]]).
Proof.
  intros Hu Hp. unfold constructor, constructor_fields, mbind, Completion_bind.
  rewrite !get_prop_VObj. fold (credential fields "username") (credential fields "password").
  rewrite Hu, Hp. reflexivity.
Qed.

(** C8.  A configuration whose username or password is missing (no such
    entry, or a falsy one: the test of line 91) makes the constructor throw
    the missing-parameter error, with nothing logged and no request sent.
    With both given and truthy the constructor does not throw that error,
    and still sends no request. *)
Theorem constructor_missing_credentials remote (fields : list (string * Val)) :
  (truthy (credential fields "username") = false \/
   truthy (credential fields "password") = false ->
   constructor remote (VObj fields) = (Throw missing_parameter, [])) /\
  (truthy (credential fields "username") = true ->
   truthy (credential fields "password") = true ->
   fst (constructor remote (VObj fields)) <> Throw missing_parameter /\
   requests (snd (constructor remote (VObj fields))) = []) /\
  (forall p, assoc p fields = None -> truthy (credential fields p) = false).
Proof.
  split; [|split].
  - intros Hmissing.
    unfold constructor, constructor_fields, mbind, Completion_bind.
    rewrite !get_prop_VObj. fold (credential fields "username") (credential fields "password").
    destruct Hmissing as [-> | ->]; cbn [negb orb].
    + reflexivity.
    + rewrite orb_true_r. reflexivity.
  - intros Tu Tp.
    rewrite constructor_throws_at_bind by assumption.
    split; [discriminate | reflexivity].
  - intros p Hp. unfold credential. rewrite Hp. reflexivity.
Qed.

Lemma constructor_missing_credentials_witness :
  constructor (answering one_site) (VObj [("password", VStr "b"); ("cacheTTL", VNum 2)])
  = (Throw missing_parameter, []) /\
  fst (constructor (answering one_site)
         (VObj [("username", VStr "a"); ("password", VStr "b"); ("cacheTTL", VNum 2)]))
  <> Throw missing_parameter.
Proof.
  split.
  - apply (proj1 (constructor_missing_credentials (answering one_site)
                    [("password", VStr "b"); ("cacheTTL", VNum 2)])).
    left. reflexivity.
  - apply (proj1 (proj2 (constructor_missing_credentials (answering one_site)
                    [("username", VStr "a"); ("password", VStr "b"); ("cacheTTL", VNum 2)])));
      reflexivity.
Defined.

(** ** Worked scenarios *)

Example login_sets_session :
  let w := snd (login login_then_one_site {| this := example_instance; trace := [] |}) in
  (token (this w), userId (this w), siteId (this w)) = (VStr "T1", VNum 9, VNum 42).
Proof. reflexivity. Qed.

Example login_rejected_by_network :
  fst (login (fun _ _ => Throw (VErr Error "ECONNREFUSED")) example_world)
  = Throw (VErr Error "Login failed: ECONNREFUSED").
Proof. reflexivity. Qed.

Example init_after_login_fails_on_STATUS :
  last (trace (snd (init login_then_one_site example_world)))
  = Some (Log Err [Plain (VStr "Initialization failed"); Plain (not_defined "STATUS")]).
Proof. reflexivity. Qed.

Example disarmSite_fails_on_clientImei :
  disarmSite login_then_one_site example_world
  = (Throw (VErr Error "Disarm operation failed: clientImei is not defined"), example_world).
Proof. reflexivity. Qed.

Example expiry_drops_the_entry :
  let w := snd (NodeCache_expire "status"
                  (holding "status" (snapshot (VNum 1) (VNum 0)) example_world)) in
  data (statusCache (this w)) !! "status" = None /\ emitted "error" (trace w) = [].
Proof. split; reflexivity. Qed.

(** * Further properties *)

(** ** The constructor never returns *)

Lemma constructor_outcome remote (config : Val) :
  exists e t,
    constructor remote config = (Throw e, t) /\
    requests t = [] /\ (length t <= 1)%nat /\ subscriptions t = [].
Proof.
  unfold constructor.
  destruct (constructor_fields config) as [self|e].
  - unfold mbind, M_bind, log_debug, record, lift. cbn.
    eexists _, _. split; [reflexivity|]. cbn. split; [reflexivity|]. split; [lia|reflexivity].
  - eexists _, _. split; [reflexivity|]. cbn. split; [reflexivity|]. split; [lia|reflexivity].
Qed.

(** X1.  [new ADT(config, log)] throws for every configuration: reading the
    configuration fails, or a credential is missing, or line 103 fails on
    the undefined [attemptToRecoverFromFailure].  [init] is not started: no
    request is sent and at most the debug line of line 95 is logged. *)
Theorem constructor_never_returns remote (config : Val) :
  (exists e, fst (constructor remote config) = Throw e) /\
  requests (snd (constructor remote config)) = [] /\
  (length (snd (constructor remote config)) <= 1)%nat.
Proof.
  destruct (constructor_outcome remote config) as (e & t & -> & Hr & Hl & _).
  split; [exists e; reflexivity|]. split; assumption.
Qed.

(** ** What the remote calls leave alone *)

#[global] Instance session_only_preorder : PreOrder session_only.
Proof.
  split.
  - intros w. unfold session_only. repeat split.
  - intros w1 w2 w3 H12 H23. unfold session_only in *.
    destruct H12 as (?&?&?&?&?&?&?&?&E12), H23 as (?&?&?&?&?&?&?&?&E23).
    repeat split; congruence.
Qed.

Lemma record_session_only (e : Event) :
  is_emit e = false -> keeps session_only (record e).
Proof.
  intros He w. unfold session_only, record. cbn -[emitted].
  repeat (split; [reflexivity|]).
  intros event. rewrite emitted_app.
  destruct e; try discriminate; cbn; apply app_nil_r.
Qed.

Lemma modify_session_only (f : ADT -> ADT) :
  (forall o, name (f o) = name o /\ username (f o) = username o /\
             password (f o) = password o /\ cacheTTL (f o) = cacheTTL o /\
             keypadPin (f o) = keypadPin o /\ statusCache (f o) = statusCache o /\
             targetState (f o) = targetState o /\ subscribers (f o) = subscribers o) ->
  keeps session_only (modify f).
Proof.
  intros Hf w. unfold session_only, modify. cbn.
  destruct (Hf (this w)) as (?&?&?&?&?&?&?&?).
  repeat (split; [assumption|]). reflexivity.
Qed.

Lemma request_session_only remote options : keeps session_only (request remote options).
Proof.
  unfold request. intros w.
  apply (keeps_bind session_only (record (Request options)) (fun _ => lift (remote _ options))).
  - now apply record_session_only.
  - intros _. apply keeps_lift; apply _.
Qed.

Ltac session_step :=
  lazymatch goal with
  | |- keeps _ (throw _ ≫= _) => apply keeps_throw_bind; apply _
  | |- keeps _ (_ ≫= _) => apply keeps_bind; [apply _ | | intros ?]
  | |- keeps _ (try_catch _ _) => apply keeps_try_catch; [apply _ | | intros ?]
  | |- keeps _ (mret _) => apply keeps_mret; apply _
  | |- keeps _ (throw _) => apply keeps_throw; apply _
  | |- keeps _ (lift _) => apply keeps_lift; apply _
  | |- keeps _ (gets _) => apply keeps_gets; apply _
  | |- keeps _ (resolve _) => apply keeps_resolve; apply _
  | |- keeps _ (request _ _) => apply request_session_only
  | |- keeps _ (record _) => apply record_session_only; reflexivity
  | |- keeps _ (modify _) => apply modify_session_only; intros ?; repeat split
  | |- keeps _ (if ?b then _ else _) => destruct b
  end.

Lemma getSyncInfo_session_only remote : keeps session_only (getSyncInfo remote).
Proof. unfold getSyncInfo. repeat session_step. Qed.

Lemma getStateInfo_session_only remote : keeps session_only (getStateInfo remote).
Proof. unfold getStateInfo. repeat session_step. Qed.

Lemma login_session_only remote : keeps session_only (login remote).
Proof.
  unfold login, log_debug.
  repeat first [ session_step | exact (getSyncInfo_session_only _) ].
Qed.

(** ** [catch] blocks that rethrow *)

Lemma try_catch_rethrown {A} (body : M A) (prefix : string) (w : World) :
  try_catch body
    (fun error =>
       message ← lift (get_prop error "message");
       throw (new_Error (js_concat (VStr prefix) message))) w =
  match body w with
  | (Normal a, w') => (Normal a, w')
  | (Throw e, w') => (Throw (rethrown prefix e), w')
  end.
Proof.
  unfold try_catch, rethrown. destruct (body w) as [[a|e] w']; [reflexivity|].
  unfold mbind, M_bind, lift. destruct (get_prop e "message"); reflexivity.
Qed.

Lemma rethrown_wrapped (prefix : string) (e : Val) : wrapped prefix (rethrown prefix e).
Proof.
  unfold wrapped, rethrown.
  destruct e; cbn; try (left; eexists; reflexivity); auto.
Qed.

Lemma rejected_wrapped {A} (body : M A) (prefix : string) (w : World) (e : Val) :
  fst (try_catch body
         (fun error =>
            message ← lift (get_prop error "message");
            throw (new_Error (js_concat (VStr prefix) message))) w) = Throw e ->
  wrapped prefix e.
Proof.
  rewrite try_catch_rethrown. destruct (body w) as [[a|e0] w']; cbn; [discriminate|].
  intros [= <-]. apply rethrown_wrapped.
Qed.

(** ** [login] *)

Lemma requests_sent (options : Val) (w : World) :
  length (requests (trace (sent options w))) = S (length (requests (trace w))).
Proof.
  unfold sent. cbn [trace]. rewrite requests_app, length_app. cbn. lia.
Qed.

Lemma login_unfold remote (w : World) :
  login remote w =
  let options := login_options (username (this w)) (password (this w)) in
  match remote (length (requests (trace w))) options with
  | Throw reason => (Throw (rethrown "Login failed: " reason), sent options w)
  | Normal response =>
      match login_accepts response with
      | Throw t => (Throw (rethrown "Login failed: " t), sent options w)
      | Normal false => (Throw (VErr Error "Login failed: Login failed"), sent options w)
      | Normal true =>
          let w1 := {| this := with_token (member_of response "token") (this w);
                       trace := trace w ++ [Request options] |} in
          match get_prop (member_of response "user") "id" with
          | Throw t => (Throw (rethrown "Login failed: " t), w1)
          | Normal uid =>
              match getSyncInfo remote {| this := with_userId uid (this w1); trace := trace w1 |} with
              | (Throw e, w3) => (Throw (rethrown "Login failed: " e), w3)
              | (Normal _, w3) =>
                  (Normal VUndef,
                   {| this := this w3;
                      trace := trace w3 ++ [Log Debug [Plain (VStr "Login successful. Token:");
                                                       Plain (token (this w3))]] |})
              end
          end
      end
  end.
Proof.
  unfold login. rewrite try_catch_rethrown. cbv zeta.
  unfold request, record, lift, modify, gets, throw, log_debug, mbind, M_bind, sent.
  cbn [resolve assoc module_scope String.eqb Ascii.eqb Bool.eqb mret M_ret fst snd this trace].
  change (js_concat (VStr _) (VStr "/auth/login")) with loginUrl.
  fold (login_options (username (this w)) (password (this w))).
  destruct (remote _ _) as [response|reason]; [|reflexivity].
  unfold login_accepts, mbind, Completion_bind.
  destruct (get_prop response "status") as [st|t] eqn:Hst; [|reflexivity].
  destruct (strict_eq st (VStr "SUCCESS")); [|reflexivity].
  rewrite (get_prop_defined _ _ _ "token" Hst).
  cbn [andb mret Completion_ret].
  destruct (truthy (member_of response "token")); [|reflexivity].
  rewrite (get_prop_defined _ _ _ "user" Hst).
  destruct (get_prop (member_of response "user") "id") as [uid|t]; [|reflexivity].
  destruct (getSyncInfo remote _) as [[v|e] w3]; reflexivity.
Qed.

(** X2.  [login] changes nothing but the session: the configuration, the
    cache, the target state and the subscribers are as before, and no
    notification is raised, however the call ends. *)
Theorem login_touches_session_only remote (w : World) :
  session_only w (snd (login remote w)).
Proof. exact (login_session_only remote w). Qed.

(** X3.  An accepted login followed by a sync-info reply with a first site
    fulfils; the token, the user's id and the site's id are stored; two
    requests went out, the login and then the sync-info carrying the token
    just received; the success line is logged last. *)
Theorem login_establishes_session remote (w : World)
    (response user tok uid response2 site sid : Val) (rest : list Val) :
  remote (length (requests (trace w)))
    (login_options (username (this w)) (password (this w))) = Normal response ->
  get_prop response "status" = Normal (VStr "SUCCESS") ->
  get_prop response "token" = Normal tok -> truthy tok = true ->
  get_prop response "user" = Normal user -> get_prop user "id" = Normal uid ->
  remote (S (length (requests (trace w)))) (getSyncInfo_options syncInfoUrl tok)
  = Normal response2 ->
  get_prop response2 "status" = Normal (VStr "SUCCESS") ->
  get_prop response2 "masterSites" = Normal (VArr (site :: rest)) ->
  get_prop site "id" = Normal sid ->
  login remote w =
  (Normal VUndef,
   {| this := with_siteId sid (with_userId uid (with_token tok (this w)));
      trace := trace w ++
               [ Request (login_options (username (this w)) (password (this w)));
                 Request (getSyncInfo_options syncInfoUrl tok);
                 Log Debug [Plain (VStr "Login successful. Token:"); Plain tok] ] |}).
Proof.
  intros Hreply Hstatus Htok Ttok Huser Hid Hreply2 Hstatus2 Hsites Hsid.
  rewrite login_unfold. cbv zeta. rewrite Hreply.
  unfold login_accepts, mbind, Completion_bind, member_of.
  rewrite Hstatus, Htok, Huser, Hid. cbn [strict_eq String.eqb Ascii.eqb Bool.eqb mret Completion_ret].
  rewrite Ttok.
  rewrite getSyncInfo_unfold. cbv zeta. cbn [this trace token with_userId with_token].
  change (trace w ++ [Request ?o])%list with (trace (sent o w)).
  rewrite requests_sent, Hreply2.
  unfold has_master_site, first_site_id, mbind, Completion_bind.
  rewrite Hstatus2. cbn [strict_eq String.eqb Ascii.eqb Bool.eqb].
  rewrite Hsites. cbn [truthy get_prop String.eqb Ascii.eqb Bool.eqb].
  rewrite js_gt_length_cons. cbn [mret Completion_ret get_first hd].
  rewrite Hsid. unfold sent. cbn [this trace token with_siteId].
  rewrite <- !app_assoc. reflexivity.
Qed.

Lemma login_establishes_session_witness :
  login login_then_one_site example_world =
  (Normal VUndef,
   {| this := with_siteId (VNum 42) (with_userId (VNum 9) (with_token (VStr "T1") example_instance));
      trace := [ Request (login_options (VStr "a") (VStr "b"));
                 Request (getSyncInfo_options syncInfoUrl (VStr "T1"));
                 Log Debug [Plain (VStr "Login successful. Token:"); Plain (VStr "T1")] ] |}).
Proof.
  exact (login_establishes_session login_then_one_site example_world
           login_reply (VObj [("id", VNum 9)]) (VStr "T1") (VNum 9)
           one_site (VObj [("id", VNum 42)]) (VNum 42) []
           eq_refl eq_refl eq_refl eq_refl eq_refl eq_refl eq_refl eq_refl eq_refl eq_refl).
Defined.

(** X4.  [login] is not atomic: when the login is accepted and the sync-info
    reply names no site, [login] rejects, yet the token and the user's id it
    received stay stored; the site's id is as before. *)
Theorem login_rejected_keeps_token remote (w : World)
    (response user tok uid response2 : Val) :
  remote (length (requests (trace w)))
    (login_options (username (this w)) (password (this w))) = Normal response ->
  get_prop response "status" = Normal (VStr "SUCCESS") ->
  get_prop response "token" = Normal tok -> truthy tok = true ->
  get_prop response "user" = Normal user -> get_prop user "id" = Normal uid ->
  remote (S (length (requests (trace w)))) (getSyncInfo_options syncInfoUrl tok)
  = Normal response2 ->
  (get_prop response2 "masterSites" = Normal VUndef \/
   get_prop response2 "masterSites" = Normal (VArr [])) ->
  fst (login remote w)
  = Throw (VErr Error ("Login failed: Failed to retrieve sync info or save ID: " ++
                       "Failed to retrieve sync info or masterSites array is empty")) /\
  this (snd (login remote w)) = with_userId uid (with_token tok (this w)).
Proof.
  intros Hreply Hstatus Htok Ttok Huser Hid Hreply2 Hsites.
  rewrite login_unfold. cbv zeta. rewrite Hreply.
  unfold login_accepts, mbind, Completion_bind, member_of.
  rewrite Hstatus, Htok, Huser, Hid. cbn [strict_eq String.eqb Ascii.eqb Bool.eqb mret Completion_ret].
  rewrite Ttok.
  rewrite getSyncInfo_unfold. cbv zeta. cbn [this trace token with_userId with_token].
  change (trace w ++ [Request ?o])%list with (trace (sent o w)).
  rewrite requests_sent, Hreply2.
  assert (has_master_site response2 = Normal false) as ->; [|split; reflexivity].
  unfold has_master_site, mbind, Completion_bind.
  assert (get_prop response2 "status" = Normal (member_of response2 "status")) as ->.
  { destruct Hsites as [H|H]; exact (get_prop_defined _ _ _ "status" H). }
  destruct (strict_eq _ _); [|reflexivity].
  destruct Hsites as [-> | ->]; reflexivity.
Qed.

Lemma login_rejected_keeps_token_witness :
  fst (login login_then_no_site example_world)
  = Throw (VErr Error ("Login failed: Failed to retrieve sync info or save ID: " ++
                       "Failed to retrieve sync info or masterSites array is empty")) /\
  this (snd (login login_then_no_site example_world))
  = with_userId (VNum 9) (with_token (VStr "T1") example_instance).
Proof.
  apply (login_rejected_keeps_token login_then_no_site example_world
           login_reply (VObj [("id", VNum 9)]) (VStr "T1") (VNum 9) no_site
           eq_refl eq_refl eq_refl eq_refl eq_refl eq_refl eq_refl).
  right. reflexivity.
Defined.

(** X5.  A login the service does not accept (status other than 'SUCCESS', or
    a falsy token) and a login request that fails both reject with an error
    under 'Login failed: ' after the one request, and leave the instance as
    it was. *)
Theorem login_refused_leaves_instance remote (w : World) :
  (forall response st,
     remote (length (requests (trace w)))
       (login_options (username (this w)) (password (this w))) = Normal response ->
     get_prop response "status" = Normal st ->
     strict_eq st (VStr "SUCCESS") = false \/ truthy (member_of response "token") = false ->
     login remote w =
     (Throw (VErr Error "Login failed: Login failed"),
      sent (login_options (username (this w)) (password (this w))) w)) /\
  (forall kind message,
     remote (length (requests (trace w)))
       (login_options (username (this w)) (password (this w))) = Throw (VErr kind message) ->
     login remote w =
     (Throw (VErr Error ("Login failed: " ++ message)),
      sent (login_options (username (this w)) (password (this w))) w)).
Proof.
  split.
  - intros response st Hreply Hstatus Hrefused.
    rewrite login_unfold. cbv zeta. rewrite Hreply.
    unfold login_accepts, mbind, Completion_bind.
    rewrite Hstatus. destruct (strict_eq st (VStr "SUCCESS")); [|reflexivity].
    rewrite (get_prop_defined _ _ _ "token" Hstatus).
    destruct Hrefused as [?| ->]; [discriminate | reflexivity].
  - intros kind message Hreply.
    rewrite login_unfold. cbv zeta. rewrite Hreply. reflexivity.
Qed.

Lemma login_refused_leaves_instance_witness :
  login (answering no_site) example_world =
  (Throw (VErr Error "Login failed: Login failed"),
   sent (login_options (VStr "a") (VStr "b")) example_world) /\
  login unreachable example_world =
  (Throw (VErr Error "Login failed: ECONNREFUSED"),
   sent (login_options (VStr "a") (VStr "b")) example_world).
Proof.
  split.
  - apply (proj1 (login_refused_leaves_instance (answering no_site) example_world)
             no_site (VStr "SUCCESS") eq_refl eq_refl).
    right. reflexivity.
  - exact (proj2 (login_refused_leaves_instance unreachable example_world)
             Error "ECONNREFUSED" eq_refl).
Defined.

(** ** Rejections *)

(** X6.  Whatever makes [login], [getSyncInfo], [getStateInfo],
    [getUserPreferences], [armBeamsOnly] or [disarmSite] reject, the reason
    is an [Error] whose message starts with the method's own prefix; the one
    exception is an underlying reason that is [undefined] or [null], where
    the [catch] block itself throws the TypeError of reading [message]. *)
Theorem rejections_are_wrapped remote (w : World) (e : Val) :
  (fst (login remote w) = Throw e -> wrapped "Login failed: " e) /\
  (fst (getSyncInfo remote w) = Throw e ->
   wrapped "Failed to retrieve sync info or save ID: " e) /\
  (fst (getStateInfo remote w) = Throw e -> wrapped "Failed to retrieve state info: " e) /\
  (fst (getUserPreferences remote w) = Throw e ->
   wrapped "Failed to retrieve user preferences: " e) /\
  (fst (armBeamsOnly remote w) = Throw e -> wrapped "Arm operation failed: " e) /\
  (fst (disarmSite remote w) = Throw e -> wrapped "Disarm operation failed: " e).
Proof.
  repeat split; apply rejected_wrapped.
Qed.

Lemma rejections_are_wrapped_witness :
  wrapped "Login failed: " (VErr Error "Login failed: ECONNREFUSED") /\
  wrapped "Failed to retrieve sync info or save ID: "
    (VErr Error "Failed to retrieve sync info or save ID: ECONNREFUSED") /\
  wrapped "Failed to retrieve state info: "
    (VErr Error "Failed to retrieve state info: ECONNREFUSED") /\
  wrapped "Failed to retrieve user preferences: "
    (VErr Error "Failed to retrieve user preferences: ECONNREFUSED") /\
  wrapped "Arm operation failed: " (VErr Error "Arm operation failed: ECONNREFUSED") /\
  wrapped "Disarm operation failed: "
    (VErr Error "Disarm operation failed: clientImei is not defined").
Proof.
  repeat split.
  - exact (proj1 (rejections_are_wrapped unreachable example_world _) eq_refl).
  - exact (proj1 (proj2 (rejections_are_wrapped unreachable example_world _)) eq_refl).
  - exact (proj1 (proj2 (proj2 (rejections_are_wrapped unreachable example_world _))) eq_refl).
  - exact (proj1 (proj2 (proj2 (proj2
             (rejections_are_wrapped unreachable example_world _)))) eq_refl).
  - exact (proj1 (proj2 (proj2 (proj2 (proj2
             (rejections_are_wrapped unreachable example_world _))))) eq_refl).
  - exact (proj2 (proj2 (proj2 (proj2 (proj2
             (rejections_are_wrapped unreachable example_world _))))) eq_refl).
Defined.

(** ** [getSyncInfo], beyond the site list *)

(** X7.  Every call of [getSyncInfo] sends exactly one request, the POST of
    lines 211 to 228 with the token the instance holds.  A rejected call
    leaves the instance as it was; a fulfilled one yields [undefined] and
    changes the site's id only. *)
Theorem getSyncInfo_effect remote (w : World) :
  trace (snd (getSyncInfo remote w))
  = (trace w ++ [Request (getSyncInfo_options syncInfoUrl (token (this w)))])%list /\
  match fst (getSyncInfo remote w) with
  | Throw _ => this (snd (getSyncInfo remote w)) = this w
  | Normal v =>
      v = VUndef /\
      this (snd (getSyncInfo remote w))
      = with_siteId (siteId (this (snd (getSyncInfo remote w)))) (this w)
  end.
Proof.
  rewrite getSyncInfo_unfold. cbv zeta.
  destruct (remote _ _) as [response|reason].
  - destruct (has_master_site response) as [[|]|t].
    + destruct (first_site_id response) as [id|t]; [repeat split|].
      destruct (get_prop t "message"); split; reflexivity.
    + split; reflexivity.
    + destruct (get_prop t "message"); split; reflexivity.
  - destruct (get_prop reason "message"); split; reflexivity.
Qed.

(** X8.  A sync-info reply whose status is not 'SUCCESS' is rejected even
    when it lists sites: the site's id is not taken from it. *)
Theorem getSyncInfo_requires_success remote (w : World) (response st : Val) :
  remote (length (requests (trace w))) (getSyncInfo_options syncInfoUrl (token (this w)))
  = Normal response ->
  get_prop response "status" = Normal st ->
  strict_eq st (VStr "SUCCESS") = false ->
  fst (getSyncInfo remote w) = Throw sync_failed /\
  this (snd (getSyncInfo remote w)) = this w.
Proof.
  intros Hreply Hstatus Hst. rewrite getSyncInfo_unfold. cbv zeta. rewrite Hreply.
  unfold has_master_site, mbind, Completion_bind. rewrite Hstatus, Hst.
  split; reflexivity.
Qed.

Lemma getSyncInfo_requires_success_witness :
  fst (getSyncInfo (answering failed_with_site) example_world) = Throw sync_failed /\
  this (snd (getSyncInfo (answering failed_with_site) example_world)) = this example_world.
Proof.
  exact (getSyncInfo_requires_success (answering failed_with_site) example_world
           failed_with_site (VStr "FAILED") eq_refl eq_refl eq_refl).
Defined.

(** ** [getStateInfo] and [getUserPreferences] *)

Lemma strict_eq_VStr (v : Val) (s : string) :
  strict_eq v (VStr s) = true <-> v = VStr s.
Proof.
  destruct v; cbn; try (split; [discriminate | intros [=]]).
  rewrite String.eqb_eq. split; [intros -> | intros [= ->]]; reflexivity.
Qed.

Lemma getStateInfo_unfold remote (w : World) :
  getStateInfo remote w =
  let options := getStateInfo_options (token (this w)) in
  (match remote (length (requests (trace w))) options with
   | Throw reason => Throw (rethrown "Failed to retrieve state info: " reason)
   | Normal response =>
       match get_prop response "status" with
       | Throw t => Throw (rethrown "Failed to retrieve state info: " t)
       | Normal st =>
           if strict_eq st (VStr "SUCCESS") then Normal response
           else Throw (VErr Error "Failed to retrieve state info: Failed to retrieve state info")
       end
   end, sent options w).
Proof.
  unfold getStateInfo. rewrite try_catch_rethrown. cbv zeta.
  unfold request, record, lift, gets, throw, mbind, M_bind, sent.
  cbn [resolve assoc module_scope String.eqb Ascii.eqb Bool.eqb mret M_ret fst snd this trace].
  change (js_concat (VStr _) (VStr "/device/getStateInfo"))
    with (VStr "https://ids.trintel.co.za/Inhep-Impl-1.0-SNAPSHOT/device/getStateInfo").
  fold (getStateInfo_options (token (this w))).
  destruct (remote _ _) as [response|reason]; [|reflexivity].
  destruct (get_prop response "status") as [st|t]; [|reflexivity].
  destruct (strict_eq st (VStr "SUCCESS")); reflexivity.
Qed.

Lemma getUserPreferences_unfold remote (w : World) :
  getUserPreferences remote w =
  let options :=
    getUserPreferences_options (token (this w)) (userId (this w)) (siteId (this w)) in
  (match remote (length (requests (trace w))) options with
   | Throw reason => Throw (rethrown "Failed to retrieve user preferences: " reason)
   | Normal response =>
       match get_prop response "success" with
       | Throw t => Throw (rethrown "Failed to retrieve user preferences: " t)
       | Normal success =>
           if truthy success then Normal response
           else Throw (VErr Error ("Failed to retrieve user preferences: " ++
                                   "Failed to retrieve user preferences"))
       end
   end, sent options w).
Proof.
  unfold getUserPreferences. rewrite try_catch_rethrown. cbv zeta.
  unfold request, record, lift, gets, throw, mbind, M_bind, sent.
  cbn [resolve assoc module_scope String.eqb Ascii.eqb Bool.eqb mret M_ret fst snd this trace].
  change (js_concat (VStr _) (VStr "/user/getUserPreferences"))
    with (VStr "https://ids.trintel.co.za/Inhep-Impl-1.0-SNAPSHOT/user/getUserPreferences").
  fold (getUserPreferences_options (token (this w)) (userId (this w)) (siteId (this w))).
  destruct (remote _ _) as [response|reason]; [|reflexivity].
  destruct (get_prop response "success") as [success|t]; [|reflexivity].
  destruct (truthy success); reflexivity.
Qed.

(** X9.  [getStateInfo] sends one request carrying the instance's token and
    never changes the instance: the state it retrieves is handed to the
    caller, not stored.  It fulfils exactly when the reply's status is
    'SUCCESS', and then with the reply itself. *)
Theorem getStateInfo_returns_reply remote (w : World) :
  snd (getStateInfo remote w) = sent (getStateInfo_options (token (this w))) w /\
  this (snd (getStateInfo remote w)) = this w /\
  forall v,
    fst (getStateInfo remote w) = Normal v <->
    remote (length (requests (trace w))) (getStateInfo_options (token (this w))) = Normal v /\
    get_prop v "status" = Normal (VStr "SUCCESS").
Proof.
  rewrite getStateInfo_unfold. cbv zeta. cbn [fst snd].
  split; [reflexivity|]. split; [reflexivity|]. intros v.
  destruct (remote _ _) as [response|reason].
  - destruct (get_prop response "status") as [st|t] eqn:Hst.
    + destruct (strict_eq st (VStr "SUCCESS")) eqn:E.
      * apply strict_eq_VStr in E. subst st.
        split; [intros [= <-]; now split | intros [[= <-] _]; reflexivity].
      * split; [discriminate|]. intros [[= <-] H]. rewrite H in Hst.
        injection Hst as <-. discriminate.
    + split; [discriminate|]. intros [[= <-] H]. congruence.
  - split; [discriminate | intros [[=] _]].
Qed.

Lemma getStateInfo_returns_reply_witness :
  fst (getStateInfo (answering state_reply) example_world) = Normal state_reply.
Proof.
  apply (proj2 (proj2 (getStateInfo_returns_reply (answering state_reply) example_world))
           state_reply).
  split; reflexivity.
Defined.

(** X10.  [getUserPreferences] sends one request carrying the token, the
    user's id and the site's id of the instance, and never changes the
    instance.  It fulfils exactly when the reply's [success] is truthy, and
    then with the reply itself. *)
Theorem getUserPreferences_returns_reply remote (w : World) :
  snd (getUserPreferences remote w)
  = sent (getUserPreferences_options (token (this w)) (userId (this w)) (siteId (this w))) w /\
  this (snd (getUserPreferences remote w)) = this w /\
  forall v,
    fst (getUserPreferences remote w) = Normal v <->
    remote (length (requests (trace w)))
      (getUserPreferences_options (token (this w)) (userId (this w)) (siteId (this w)))
    = Normal v /\
    exists success, get_prop v "success" = Normal success /\ truthy success = true.
Proof.
  rewrite getUserPreferences_unfold. cbv zeta. cbn [fst snd].
  split; [reflexivity|]. split; [reflexivity|]. intros v.
  destruct (remote _ _) as [response|reason].
  - destruct (get_prop response "success") as [success|t] eqn:Hs.
    + destruct (truthy success) eqn:E.
      * split.
        -- intros [= <-]. split; [reflexivity|]. exists success. now split.
        -- intros [[= <-] _]. reflexivity.
      * split; [discriminate|]. intros [[= <-] (s & H & Ts)]. congruence.
    + split; [discriminate|]. intros [[= <-] (s & H & _)]. congruence.
  - split; [discriminate | intros [[=] _]].
Qed.

Lemma getUserPreferences_returns_reply_witness :
  fst (getUserPreferences (answering arm_reply) example_world) = Normal arm_reply.
Proof.
  apply (proj2 (proj2 (getUserPreferences_returns_reply (answering arm_reply) example_world))
           arm_reply).
  split; [reflexivity|]. exists (VBool true). split; reflexivity.
Defined.

(** ** [armBeamsOnly] and [disarmSite] *)

Lemma armBeamsOnly_unfold remote (w : World) :
  armBeamsOnly remote w =
  let options := armBeamsOnly_options (token (this w)) (userId (this w)) (siteId (this w)) in
  match remote (length (requests (trace w))) options with
  | Throw reason => (Throw (rethrown "Arm operation failed: " reason), sent options w)
  | Normal response =>
      match get_prop response "success" with
      | Throw t => (Throw (rethrown "Arm operation failed: " t), sent options w)
      | Normal success =>
          if truthy success then
            match getSyncInfo remote (sent options w) with
            | (Throw e, w1) => (Throw (rethrown "Arm operation failed: " e), w1)
            | (Normal _, w1) =>
                match getStateInfo remote w1 with
                | (Throw e, w2) => (Throw (rethrown "Arm operation failed: " e), w2)
                | (Normal _, w2) => (Normal response, w2)
                end
            end
          else (Throw (VErr Error "Arm operation failed: Arm operation failed"),
                sent options w)
      end
  end.
Proof.
  unfold armBeamsOnly. rewrite try_catch_rethrown. cbv zeta.
  unfold request, record, lift, gets, throw, mbind, M_bind, sent.
  cbn [resolve assoc module_scope String.eqb Ascii.eqb Bool.eqb mret M_ret fst snd this trace].
  change (js_concat (VStr _) (VStr "/device/armSite"))
    with (VStr "https://ids.trintel.co.za/Inhep-Impl-1.0-SNAPSHOT/device/armSite").
  fold (armBeamsOnly_options (token (this w)) (userId (this w)) (siteId (this w))).
  destruct (remote _ _) as [response|reason]; [|reflexivity].
  destruct (get_prop response "success") as [success|t]; [|reflexivity].
  destruct (truthy success); [|reflexivity].
  destruct (getSyncInfo remote _) as [[v|e] w1]; [|reflexivity].
  destruct (getStateInfo remote w1) as [[v2|e] w2]; reflexivity.
Qed.

(** X11.  [disarmSite] rejects on every call, before anything is sent: its
    request refers to the undeclared [clientImei].  The world is as
    before. *)
Theorem disarmSite_never_sends remote (w : World) :
  disarmSite remote w =
  (Throw (VErr Error "Disarm operation failed: clientImei is not defined"), w).
Proof. reflexivity. Qed.

(** X12.  An arm request the service accepts is followed by a resync: the
    sync-info request and then the state-info request, both on the token of
    the instance.  With both answered well [armBeamsOnly] fulfils with the
    reply to the arm request; the site's id is refreshed and the instance is
    otherwise as before. *)
Theorem armBeamsOnly_resyncs remote (w : World)
    (response success response2 site sid response3 : Val) (rest : list Val) :
  remote (length (requests (trace w)))
    (armBeamsOnly_options (token (this w)) (userId (this w)) (siteId (this w)))
  = Normal response ->
  get_prop response "success" = Normal success -> truthy success = true ->
  remote (S (length (requests (trace w)))) (getSyncInfo_options syncInfoUrl (token (this w)))
  = Normal response2 ->
  get_prop response2 "status" = Normal (VStr "SUCCESS") ->
  get_prop response2 "masterSites" = Normal (VArr (site :: rest)) ->
  get_prop site "id" = Normal sid ->
  remote (S (S (length (requests (trace w))))) (getStateInfo_options (token (this w)))
  = Normal response3 ->
  get_prop response3 "status" = Normal (VStr "SUCCESS") ->
  armBeamsOnly remote w =
  (Normal response,
   {| this := with_siteId sid (this w);
      trace := trace w ++
               [ Request (armBeamsOnly_options (token (this w)) (userId (this w))
                            (siteId (this w)));
                 Request (getSyncInfo_options syncInfoUrl (token (this w)));
                 Request (getStateInfo_options (token (this w))) ] |}).
Proof.
  intros Hreply Hsuccess Tsuccess Hreply2 Hstatus2 Hsites Hsid Hreply3 Hstatus3.
  rewrite armBeamsOnly_unfold. cbv zeta. rewrite Hreply, Hsuccess, Tsuccess.
  rewrite getSyncInfo_unfold. cbv zeta.
  rewrite requests_sent. cbn [this sent]. rewrite Hreply2.
  unfold has_master_site, first_site_id, mbind, Completion_bind.
  rewrite Hstatus2. cbn [strict_eq String.eqb Ascii.eqb Bool.eqb].
  rewrite Hsites. cbn [truthy get_prop String.eqb Ascii.eqb Bool.eqb].
  rewrite js_gt_length_cons. cbn [mret Completion_ret get_first hd].
  rewrite Hsid.
  rewrite getStateInfo_unfold. cbv zeta. cbn [this trace token with_siteId].
  change (trace w ++ [Request ?o])%list with (trace (sent o w)).
  change (trace (sent ?o w) ++ [Request ?o'])%list with (trace (sent o' (sent o w))).
  rewrite !requests_sent, Hreply3, Hstatus3.
  unfold sent. cbn [this trace strict_eq String.eqb Ascii.eqb Bool.eqb].
  rewrite <- !app_assoc. reflexivity.
Qed.

Lemma armBeamsOnly_resyncs_witness :
  armBeamsOnly arm_then_resync example_world =
  (Normal arm_reply,
   {| this := with_siteId (VNum 42) example_instance;
      trace := [ Request (armBeamsOnly_options (VStr "T1") (VNum 7) VUndef);
                 Request (getSyncInfo_options syncInfoUrl (VStr "T1"));
                 Request (getStateInfo_options (VStr "T1")) ] |}).
Proof.
  exact (armBeamsOnly_resyncs arm_then_resync example_world
           arm_reply (VBool true) one_site (VObj [("id", VNum 42)]) (VNum 42) state_reply []
           eq_refl eq_refl eq_refl eq_refl eq_refl eq_refl eq_refl eq_refl eq_refl).
Defined.

(** X13.  An arm request the service answers without a truthy [success] is
    rejected after that one request: no resync follows and the instance is
    as before. *)
Theorem armBeamsOnly_refused remote (w : World) (response success : Val) :
  remote (length (requests (trace w)))
    (armBeamsOnly_options (token (this w)) (userId (this w)) (siteId (this w)))
  = Normal response ->
  get_prop response "success" = Normal success -> truthy success = false ->
  armBeamsOnly remote w =
  (Throw (VErr Error "Arm operation failed: Arm operation failed"),
   sent (armBeamsOnly_options (token (this w)) (userId (this w)) (siteId (this w))) w).
Proof.
  intros Hreply Hsuccess Tsuccess.
  rewrite armBeamsOnly_unfold. cbv zeta. rewrite Hreply, Hsuccess, Tsuccess. reflexivity.
Qed.

Lemma armBeamsOnly_refused_witness :
  armBeamsOnly (answering arm_refusal) example_world =
  (Throw (VErr Error "Arm operation failed: Arm operation failed"),
   sent (armBeamsOnly_options (VStr "T1") (VNum 7) VUndef) example_world).
Proof.
  exact (armBeamsOnly_refused (answering arm_refusal) example_world
           arm_refusal (VBool false) eq_refl eq_refl eq_refl).
Defined.

(** X14.  [armBeamsOnly] reports a failed arm operation when the service has
    accepted the arm request and only the resync fails: a rejected
    [getSyncInfo], or a rejected [getStateInfo] after it, rejects the whole
    call with that reason under 'Arm operation failed: '. *)
Theorem armBeamsOnly_fails_after_arming remote (w : World) (response success : Val) :
  remote (length (requests (trace w)))
    (armBeamsOnly_options (token (this w)) (userId (this w)) (siteId (this w)))
  = Normal response ->
  get_prop response "success" = Normal success -> truthy success = true ->
  (forall e,
     fst (getSyncInfo remote
            (sent (armBeamsOnly_options (token (this w)) (userId (this w)) (siteId (this w))) w))
     = Throw e ->
     fst (armBeamsOnly remote w) = Throw (rethrown "Arm operation failed: " e)) /\
  (forall v w1 e,
     getSyncInfo remote
       (sent (armBeamsOnly_options (token (this w)) (userId (this w)) (siteId (this w))) w)
     = (Normal v, w1) ->
     fst (getStateInfo remote w1) = Throw e ->
     fst (armBeamsOnly remote w) = Throw (rethrown "Arm operation failed: " e)).
Proof.
  intros Hreply Hsuccess Tsuccess.
  rewrite armBeamsOnly_unfold. cbv zeta. rewrite Hreply, Hsuccess, Tsuccess. split.
  - intros e He. destruct (getSyncInfo remote _) as [[v|e'] w1]; cbn in He; [discriminate|].
    now injection He as ->.
  - intros v w1 e -> He.
    destruct (getStateInfo remote w1) as [[v'|e'] w2]; cbn in He; [discriminate|].
    now injection He as ->.
Qed.

Lemma armBeamsOnly_fails_after_arming_witness :
  fst (armBeamsOnly arm_then_no_site example_world)
  = Throw (VErr Error ("Arm operation failed: Failed to retrieve sync info or save ID: " ++
                       "Failed to retrieve sync info or masterSites array is empty")) /\
  fst (armBeamsOnly arm_then_no_state example_world)
  = Throw (VErr Error ("Arm operation failed: Failed to retrieve state info: " ++
                       "Failed to retrieve state info")).
Proof.
  split.
  - exact (proj1 (armBeamsOnly_fails_after_arming arm_then_no_site example_world
                    arm_reply (VBool true) eq_refl eq_refl eq_refl)
             sync_failed eq_refl).
  - exact (proj2 (armBeamsOnly_fails_after_arming arm_then_no_state example_world
                    arm_reply (VBool true) eq_refl eq_refl eq_refl)
             VUndef _
             (VErr Error "Failed to retrieve state info: Failed to retrieve state info")
             eq_refl eq_refl).
Defined.

(** ** [init] *)

(** X15.  [init] never rejects and never announces itself: whatever the
    service replies, the call fulfils with [undefined], raises no 'init' (or
    any other) notification, and its last act is to log 'Initialization
    failed'. *)
Theorem init_never_announces remote (w : World) :
  fst (init remote w) = Normal VUndef /\
  (forall event, emitted event (trace (snd (init remote w))) = emitted event (trace w)) /\
  exists e,
    last (trace (snd (init remote w)))
    = Some (Log Err [Plain (VStr "Initialization failed"); Plain e]).
Proof.
  rewrite init_unfold.
  pose proof (login_session_only remote (listening w)) as H.
  destruct (login remote (listening w)) as [[v|e] w'];
    cbn [fst snd trace] in *;
    destruct H as (_&_&_&_&_&_&_&_&Hq);
    (split; [reflexivity|]; split; [|eexists; apply last_snoc]);
    intros event; rewrite emitted_app, Hq; unfold listening; cbn [trace];
    rewrite emitted_app; cbn; now rewrite !app_nil_r.
Qed.

(** X16.  Each call of [init] installs one more 'set' listener and one more
    'expired' listener on the cache, and leaves its stored values, its
    options, the configuration and the target state as they were. *)
Theorem init_installs_listeners remote (w : World) :
  set_listeners (statusCache (this (snd (init remote w))))
  = (set_listeners (statusCache (this w)) ++ [EmitStateIfAlarm])%list /\
  expired_listeners (statusCache (this (snd (init remote w))))
  = (expired_listeners (statusCache (this w)) ++ [RefreshStatus])%list /\
  data (statusCache (this (snd (init remote w)))) = data (statusCache (this w)) /\
  stdTTL (statusCache (this (snd (init remote w)))) = stdTTL (statusCache (this w)) /\
  targetState (this (snd (init remote w))) = targetState (this w) /\
  username (this (snd (init remote w))) = username (this w) /\
  password (this (snd (init remote w))) = password (this w).
Proof.
  rewrite init_unfold.
  pose proof (login_session_only remote (listening w)) as H.
  destruct (login remote (listening w)) as [[v|e] w'];
    cbn [fst snd this] in *;
    destruct H as (_&Hu&Hp&_&_&Hc&Ht&_&_);
    rewrite Hu, Hp, Hc, Ht; repeat split.
Qed.

(** ** Listeners *)

Lemma notify_set_unfold (ls : list SetListener) (key value : Val) (w : World) :
  notify_set ls key value w =
  (Normal tt,
   {| this := this w;
      trace := trace w ++
               (if notifies value then replicate (length ls) (Emit "state" [value]) else []) |}).
Proof.
  revert w. induction ls as [|l ls IH]; intros w.
  - destruct (notifies value); cbn; rewrite app_nil_r; destruct w; reflexivity.
  - cbn [notify_set length]. rewrite run_bind.
    assert (on_set l key value w =
            (Normal tt,
             {| this := this w;
                trace := trace w ++ (if notifies value then [Emit "state" [value]] else []) |}))
      as ->.
    { destruct l. unfold on_set, notifies.
      destruct (truthy value) eqn:Hv; cbn [andb].
      - unfold alarm_of. unfold mbind, M_bind, lift.
        rewrite (truthy_get_prop _ "alarm" Hv).
        destruct (truthy (member_of value "alarm")).
        + reflexivity.
        + cbn. rewrite app_nil_r. destruct w; reflexivity.
      - cbn. rewrite app_nil_r. destruct w; reflexivity. }
    rewrite IH. cbn [this trace]. rewrite <- app_assoc.
    destruct (notifies value); reflexivity.
Qed.

(** X17.  A [set] on the cache raises one 'state' notification for each
    'set' listener installed, when the value and its alarm section are
    truthy, and none otherwise: after two calls of [init] every update is
    notified twice. *)
Theorem cache_set_notifies_every_listener (k : string) (value : Val) (w : World) :
  NodeCache_set (VStr k) value w =
  (Normal (VBool true),
   {| this := this (holding k value w);
      trace := trace w ++
               (if notifies value
                then replicate (length (set_listeners (statusCache (this w))))
                       (Emit "state" [value])
                else []) |}).
Proof.
  unfold NodeCache_set, NodeCache_key, modify, gets, mbind, M_bind.
  cbn [mret M_ret this trace statusCache with_statusCache with_data set_listeners].
  rewrite notify_set_unfold. reflexivity.
Qed.

#[global] Instance silent_preorder : PreOrder silent.
Proof.
  split.
  - intros w. split; reflexivity.
  - intros w1 w2 w3 [H12 E12] [H23 E23]. split; [congruence|].
    intros event. rewrite E23. apply E12.
Qed.

Lemma on_expired_silent (l : ExpiredListener) (key : Val) : keeps silent (on_expired l key).
Proof.
  intros w. destruct l. rewrite on_expired_unfold. split; [reflexivity|].
  intros event. cbn [snd trace]. rewrite emitted_app. cbn. apply app_nil_r.
Qed.

Lemma notify_expired_silent (ls : list ExpiredListener) (key : Val) :
  keeps silent (notify_expired ls key).
Proof.
  induction ls as [|l ls IH].
  - apply keeps_mret; apply _.
  - cbn [notify_expired]. apply keeps_bind; [apply _ | apply on_expired_silent | intros _; exact IH].
Qed.

Lemma notify_expired_fulfils (ls : list ExpiredListener) (key : Val) (w : World) :
  fst (notify_expired ls key w) = Normal tt.
Proof.
  revert w. induction ls as [|l ls IH]; intros w; [reflexivity|].
  cbn [notify_expired]. rewrite run_bind. destruct l. rewrite on_expired_unfold. apply IH.
Qed.

(** X18.  The refresh on expiry never refreshes: once node-cache drops the
    entry under [k] and notifies the listeners, the entry stays absent, the
    other entries and the rest of the instance are as before, and no
    notification ('state', 'error' or other) is raised, however many
    listeners are installed. *)
Theorem expiry_never_refreshes (k : string) (w : World) :
  fst (NodeCache_expire k w) = Normal tt /\
  data (statusCache (this (snd (NodeCache_expire k w))))
  = delete k (data (statusCache (this w))) /\
  set_listeners (statusCache (this (snd (NodeCache_expire k w))))
  = set_listeners (statusCache (this w)) /\
  expired_listeners (statusCache (this (snd (NodeCache_expire k w))))
  = expired_listeners (statusCache (this w)) /\
  targetState (this (snd (NodeCache_expire k w))) = targetState (this w) /\
  forall event,
    emitted event (trace (snd (NodeCache_expire k w))) = emitted event (trace w).
Proof.
  unfold NodeCache_expire. rewrite !run_bind. cbn [gets].
  destruct (data (statusCache (this w)) !! k) as [v|] eqn:Hk.
  - rewrite !run_bind. cbn [modify]. rewrite run_bind. cbn [gets this with_statusCache
      statusCache with_data expired_listeners mret M_ret fst snd].
    set (w1 := {| this := _; trace := trace w |}).
    pose proof (notify_expired_silent (expired_listeners (statusCache (this w))) (VStr k) w1)
      as [Hthis Hq].
    pose proof (notify_expired_fulfils (expired_listeners (statusCache (this w))) (VStr k) w1)
      as Hn.
    split; [exact Hn|]. rewrite Hthis.
    repeat (split; [reflexivity|]).
    intros event. rewrite Hq. reflexivity.
  - cbn. repeat (split; [reflexivity|]).
    split; [symmetry; now apply delete_id | repeat split].
Qed.

(** ** The dispatch of [setState] *)

Lemma setState_dispatch_returns (status currentStatus : Val) (w : World) :
  reaches_issuance status currentStatus = false ->
  exists there : bool,
    setState_dispatch status currentStatus w =
    (Normal (if there then VNull else not_ready),
     {| this := with_targetState VUndef (this w);
        trace := trace w ++
                 [if there then Log Debug [Plain (VStr "No status change needed")]
                  else Log Err [Plain (VStr "Can't arm system. System is not ready.")]] |}).
Proof.
  unfold reaches_issuance, setState_dispatch. intros E.
  destruct (truthy currentStatus) eqn:Hc; [|discriminate].
  unfold alarm_of in E. rewrite (truthy_get_prop _ "alarm" Hc) in E.
  unfold mbind at 1, M_bind at 1, lift at 1.
  rewrite (truthy_get_prop _ "alarm" Hc).
  destruct (truthy (member_of currentStatus "alarm")) eqn:Ha; [|discriminate].
  unfold mbind at 1, M_bind at 1, lift at 1.
  rewrite (truthy_get_prop _ "armingState" Ha).
  cbn [negb orb] in E.
  destruct (strict_eq (member_of (member_of currentStatus "alarm") "armingState") status);
    [exists true; reflexivity|].
  destruct (strict_eq (member_of (member_of currentStatus "alarm") "armingState") (VNum 3));
    [|discriminate].
  unfold mbind at 1, M_bind at 1, lift at 1.
  rewrite (truthy_get_prop _ "faultStatus" Ha).
  destruct (strict_eq (member_of (member_of currentStatus "alarm") "faultStatus") (VNum 1));
    [exists false; reflexivity | discriminate].
Qed.

(** X19.  Lines 154 to 171 of [setState], entered with a value read from the
    cache, return in two ways only, [null] and the not-ready error, and both
    clear the target state first; every other way through them throws. *)
Theorem setState_dispatch_returns_cleared (status currentStatus : Val) (w : World) (v : Val) :
  fst (setState_dispatch status currentStatus w) = Normal v ->
  (v = VNull \/ v = not_ready) /\
  this (snd (setState_dispatch status currentStatus w)) = with_targetState VUndef (this w).
Proof.
  destruct (reaches_issuance status currentStatus) eqn:E.
  - rewrite setState_dispatch_issue by exact E. discriminate.
  - destruct (setState_dispatch_returns status currentStatus w E) as [[|] ->];
      intros [= <-]; split; auto.
Qed.

Lemma setState_dispatch_returns_cleared_witness :
  (VNull = VNull \/ VNull = not_ready) /\
  this (snd (setState_dispatch (VNum 1) (snapshot (VNum 1) (VNum 0)) example_world))
  = with_targetState VUndef (this example_world).
Proof.
  exact (setState_dispatch_returns_cleared (VNum 1) (snapshot (VNum 1) (VNum 0))
           example_world VNull eq_refl).
Defined.

(** * The platform *)

Lemma prun_bind {A B} (m : P A) (f : A -> P B) (w : PWorld) :
  (m ≫= f) w =
  match m w with
  | (Normal a, w') => f a w'
  | (Throw e, w') => (Throw e, w')
  end.
Proof. reflexivity. Qed.

Lemma subscriptions_app (t1 t2 : list Event) :
  subscriptions (t1 ++ t2) = (subscriptions t1 ++ subscriptions t2)%list.
Proof. unfold subscriptions. apply omap_app. Qed.

Lemma updated_app (t1 t2 : list Event) :
  updated (t1 ++ t2) = (updated t1 ++ updated t2)%list.
Proof. unfold updated. apply omap_app. Qed.

Section PFrame.

Context (R : relation PWorld) `{!PreOrder R}.

Lemma pkeeps_mret {A} (a : A) : pkeeps R (mret a).
Proof. intros w. reflexivity. Qed.

Lemma pkeeps_throw {A} (e : Val) : pkeeps R (@pthrow A e).
Proof. intros w. reflexivity. Qed.

Lemma pkeeps_lift {A} (c : Completion A) : pkeeps R (plift c).
Proof. intros w. reflexivity. Qed.

Lemma pkeeps_gets {A} (f : Platform -> A) : pkeeps R (pgets f).
Proof. intros w. reflexivity. Qed.

Lemma pkeeps_bind {A B} (m : P A) (f : A -> P B) :
  pkeeps R m -> (forall a, pkeeps R (f a)) -> pkeeps R (m ≫= f).
Proof.
  intros Hm Hf w. rewrite prun_bind. specialize (Hm w).
  destruct (m w) as [[a|e] w']; cbn in *; [|exact Hm].
  transitivity w'; [exact Hm | apply Hf].
Qed.

Lemma pkeeps_throw_bind {A B} (e : Val) (f : A -> P B) : pkeeps R (pthrow e ≫= f).
Proof. intros w. reflexivity. Qed.

Lemma pkeeps_gets_bind {A B} (g : Platform -> A) (f : A -> P B) :
  (forall p, pkeeps R (f (g p))) -> pkeeps R (pgets g ≫= f).
Proof. intros H w. exact (H (platform w) w). Qed.

End PFrame.

Lemma aborts_bind {A B} (m : P A) (f : A -> P B) :
  (forall a, aborts (f a)) -> aborts (m ≫= f).
Proof.
  intros Hf w. rewrite prun_bind.
  destruct (m w) as [[a|e] w']; [apply Hf | eexists; reflexivity].
Qed.

Lemma aborts_gets_bind {A B} (g : Platform -> A) (f : A -> P B) :
  (forall p, aborts (f (g p))) -> aborts (pgets g ≫= f).
Proof. intros H w. exact (H (platform w) w). Qed.

Lemma aborts_throw_bind {A B} (e : Val) (f : A -> P B) : aborts (pthrow e ≫= f).
Proof. intros w. eexists; reflexivity. Qed.

#[global] Instance grown_preorder : PreOrder grown.
Proof.
  split.
  - intros w Hs. repeat (split; [reflexivity || assumption|]).
    exists []. now rewrite app_nil_r.
  - intros w1 w2 w3 H12 H23 Hs.
    destruct (H12 Hs) as (S12 & N12 & L12 & Hs2 & more12 & C12).
    destruct (H23 Hs2) as (S23 & N23 & L23 & Hs3 & more23 & C23).
    repeat (split; [congruence|]).
    exists (more12 ++ more23)%list. rewrite C23, C12. now rewrite app_assoc.
Qed.

Lemma precord_grown (e : Event) :
  subscriptions [e] = [] -> pkeeps grown (precord e).
Proof.
  intros He w Hs. unfold precord. cbn [snd ptrace platform].
  rewrite subscriptions_app, He, app_nil_r.
  repeat (split; [reflexivity || assumption|]).
  exists []. now rewrite app_nil_r.
Qed.

Lemma push_grown (x : Val) : pkeeps grown (pmodify (push_platformAccessories x)).
Proof.
  intros w Hs. unfold pmodify, push_platformAccessories. cbn [snd ptrace platform].
  rewrite Hs. cbn. repeat (split; [reflexivity|]). now exists [x].
Qed.

Lemma pcall_grown (f : Val) (callee : string) (args : list Val) :
  String.eqb callee "this.adt.on" = false -> pkeeps grown (pcall f callee args).
Proof.
  intros Hc. destruct f; try (apply pkeeps_throw; apply _).
  unfold pcall. apply pkeeps_bind; [apply _ | | intros ?; apply pkeeps_mret; apply _].
  apply precord_grown. cbn. now rewrite Hc.
Qed.

Lemma share_grown : pkeeps grown (pmodify share_cachedAccessories).
Proof.
  intros w Hs. unfold pmodify, share_cachedAccessories. cbn.
  repeat (split; [reflexivity|]). exists []. now rewrite app_nil_r.
Qed.

Ltac pframe_step :=
  lazymatch goal with
  | |- pkeeps _ (pthrow _ ≫= _) => apply pkeeps_throw_bind; apply _
  | |- pkeeps _ (pcall VUndef _ _ ≫= _) => apply pkeeps_throw_bind; apply _
  | |- pkeeps _ (pgets (fun p => platform_prop p _) ≫= _) =>
      apply pkeeps_gets_bind; intros ?; cbn
  | |- pkeeps _ (_ ≫= _) => apply pkeeps_bind; [apply _ | | intros ?]
  | |- pkeeps _ (mret _) => apply pkeeps_mret; apply _
  | |- pkeeps _ (pthrow _) => apply pkeeps_throw; apply _
  | |- pkeeps _ (plift _) => apply pkeeps_lift; apply _
  | |- pkeeps _ (pgets _) => apply pkeeps_gets; apply _
  | |- pkeeps _ (pcall _ _ _) => apply pcall_grown; reflexivity
  | |- pkeeps _ (precord _) => apply precord_grown; reflexivity
  | |- pkeeps _ (pmodify share_cachedAccessories) => apply share_grown
  | |- pkeeps _ (pmodify (push_platformAccessories _)) => apply push_grown
  | |- pkeeps _ (if ?b then _ else _) => destruct b
  end.

Section PlatformProperties.

Variable SECURITY_SYSTEM : Completion Val.
Variables securitySystem_from securitySystem_with contactSensor_with getAccessory
  : Val -> Completion Val.
Variable registerPlatformAccessories : list Val -> Completion Val.
Variable updateCharacteristics : Val -> Val -> Completion Val.

Lemma add_contactSensors_grown (sensors : list Val) :
  pkeeps grown (add_contactSensors contactSensor_with sensors).
Proof.
  induction sensors as [|sensor sensors IH].
  - apply pkeeps_mret; apply _.
  - cbn [add_contactSensors].
    apply pkeeps_bind; [apply _ | apply pkeeps_lift; apply _ | intros c].
    apply pkeeps_bind; [apply _ | apply push_grown | intros _].
    apply pkeeps_bind; [apply _ | exact IH | intros rest].
    apply pkeeps_mret; apply _.
Qed.

Lemma unknown_sensors_grown (contactSensors : Val) :
  pkeeps grown (unknown_sensors contactSensors).
Proof. destruct contactSensors; unfold unknown_sensors; repeat pframe_step. Qed.

Lemma initialize_grown (state : Val) :
  pkeeps grown
    (initialize securitySystem_with contactSensor_with getAccessory
       registerPlatformAccessories state).
Proof.
  unfold initialize.
  repeat first [ pframe_step
               | exact (unknown_sensors_grown _)
               | exact (add_contactSensors_grown _) ].
Qed.

Lemma initialize_aborts (state : Val) :
  aborts (initialize securitySystem_with contactSensor_with getAccessory
            registerPlatformAccessories state).
Proof.
  unfold initialize.
  repeat lazymatch goal with
         | |- aborts (pgets (fun p => platform_prop p _) ≫= _) =>
             apply aborts_gets_bind; intros ?; cbn
         | |- aborts (pcall VUndef _ _ ≫= _) => apply aborts_throw_bind
         | |- aborts (pthrow _ ≫= _) => apply aborts_throw_bind
         | |- aborts (_ ≫= _) => apply aborts_bind; intros ?
         end.
Qed.

Lemma initialize_from_shared (state : Val) (w : PWorld) :
  initialize securitySystem_with contactSensor_with getAccessory
    registerPlatformAccessories state w =
  initialize securitySystem_with contactSensor_with getAccessory
    registerPlatformAccessories state
    {| platform := share_cachedAccessories (platform w); ptrace := ptrace w |}.
Proof. reflexivity. Qed.

(** X20.  [initialize] never returns and never subscribes [updateState] to
    the 'state' notifications: whatever the state, the platform and the
    accessory classes, the call throws (at the latest at line 55, where
    [this.setupCameras] is undefined) before line 57 is reached. *)
Theorem initialize_never_subscribes (state : Val) (w : PWorld) :
  (exists e,
     fst (initialize securitySystem_with contactSensor_with getAccessory
            registerPlatformAccessories state w) = Throw e) /\
  subscriptions (ptrace (snd (initialize securitySystem_with contactSensor_with getAccessory
                                registerPlatformAccessories state w)))
  = subscriptions (ptrace w).
Proof.
  split; [apply initialize_aborts|].
  rewrite initialize_from_shared.
  exact (proj1 (initialize_grown state
                  {| platform := share_cachedAccessories (platform w); ptrace := ptrace w |}
                  eq_refl)).
Qed.

(** X21.  After [initialize], however it ends, [this.platformAccessories]
    and [this.cachedAccessories] are one array: the accessories restored by
    [configureAccessory] are all in it, in their order, followed by the ones
    [initialize] created.  The array made at line 9 is left as it was. *)
Theorem initialize_shares_cachedAccessories (state : Val) (w : PWorld) :
  platformAccessories
    (platform (snd (initialize securitySystem_with contactSensor_with getAccessory
                      registerPlatformAccessories state w))) = Line10Array /\
  accessories
    (platform (snd (initialize securitySystem_with contactSensor_with getAccessory
                      registerPlatformAccessories state w)))
  = cachedAccessories
      (platform (snd (initialize securitySystem_with contactSensor_with getAccessory
                        registerPlatformAccessories state w))) /\
  line9_array
    (platform (snd (initialize securitySystem_with contactSensor_with getAccessory
                      registerPlatformAccessories state w)))
  = line9_array (platform w) /\
  exists created,
    cachedAccessories
      (platform (snd (initialize securitySystem_with contactSensor_with getAccessory
                        registerPlatformAccessories state w)))
    = (cachedAccessories (platform w) ++ created)%list.
Proof.
  rewrite initialize_from_shared.
  destruct (initialize_grown state
              {| platform := share_cachedAccessories (platform w); ptrace := ptrace w |}
              eq_refl) as (_ & _ & Hl & Hs & more & Hc).
  split; [exact Hs|]. split; [unfold accessories; now rewrite Hs|].
  split; [exact Hl | exists more; exact Hc].
Qed.

End PlatformProperties.

(** X22.  The platform is never built: [new smartSecurityPlatform(log,
    config, api)] throws for every configuration, because reading the
    configuration or [new adt(config, log)] does.  [initialize] is never
    subscribed to 'init' and no request is sent. *)
Theorem smartSecurityPlatform_never_starts remote (config : Val) :
  (exists e, fst (smartSecurityPlatform remote config) = Throw e) /\
  requests (snd (smartSecurityPlatform remote config)) = [] /\
  subscriptions (snd (smartSecurityPlatform remote config)) = [].
Proof.
  unfold smartSecurityPlatform.
  destruct (get_prop config "name") as [config_name|e].
  - destruct (constructor_outcome remote config) as (e & t & -> & Hr & _ & Hs).
    split; [exists e; reflexivity | split; assumption].
  - split; [exists e; reflexivity | split; reflexivity].
Qed.

Section Restore.

Variable SECURITY_SYSTEM : Completion Val.
Variable securitySystem_from : Val -> Completion Val.
Variable updateCharacteristics : Val -> Val -> Completion Val.

(** X23.  [configureAccessory] restores security systems only.  An accessory
    of any other category is refused with an error naming the category, and
    no array changes; a security system is pushed on [cachedAccessories],
    once, at the end. *)
Theorem configureAccessory_restores_security_systems
    (accessory displayName category security_system : Val) (w : PWorld) :
  get_prop accessory "displayName" = Normal displayName ->
  get_prop accessory "category" = Normal category ->
  SECURITY_SYSTEM = Normal security_system ->
  (strict_eq category security_system = false ->
   configureAccessory SECURITY_SYSTEM securitySystem_from accessory w =
   (Throw (VErr Error ("Cannot refresh cached accessory with category " ++ to_string category)),
    {| platform := platform w;
       ptrace := ptrace w ++ [Log Debug [Plain (VStr "Refreshing cached accessory");
                                         Plain displayName]] |})) /\
  (forall restored,
     strict_eq category security_system = true ->
     securitySystem_from accessory = Normal restored ->
     configureAccessory SECURITY_SYSTEM securitySystem_from accessory w =
     (Normal VUndef,
      {| platform := push_cachedAccessories restored (platform w);
         ptrace := ptrace w ++ [Log Debug [Plain (VStr "Refreshing cached accessory");
                                           Plain displayName]] |})).
Proof.
  intros Hname Hcat Hss. unfold configureAccessory, plift, precord, pmodify, pthrow, mbind, P_bind.
  rewrite Hname, Hcat, Hss. split.
  - intros ->. reflexivity.
  - intros restored -> ->. reflexivity.
Qed.

Lemma update_each_all (l : list Val) (state : Val) (w : PWorld) :
  (forall a, a ∈ l -> exists v, updateCharacteristics a state = Normal v) ->
  update_each updateCharacteristics l state w =
  (Normal tt,
   {| platform := platform w;
      ptrace := ptrace w ++
                map (fun a => Call "accessory.updateCharacteristics" [a; state]) l |}).
Proof.
  revert w. induction l as [|a l IH]; intros w Hall.
  - cbn. rewrite app_nil_r. destruct w; reflexivity.
  - destruct (Hall a) as [v Hv]; [left|].
    cbn [update_each]. unfold precord, plift, mbind, P_bind. rewrite Hv.
    fold (@mbind P _). rewrite IH by (intros a' Ha'; apply Hall; now right).
    cbn [platform ptrace map]. rewrite <- app_assoc. reflexivity.
Qed.

Lemma updated_calls (l : list Val) (state : Val) :
  updated (map (fun a => Call "accessory.updateCharacteristics" [a; state]) l) = l.
Proof.
  induction l as [|a l IH]; [reflexivity|].
  change (a :: updated (map (fun a => Call "accessory.updateCharacteristics" [a; state]) l)
          = a :: l).
  now rewrite IH.
Qed.

(** X24.  [updateState] hands the state to the accessories in their order.
    While none of them throws, each is updated exactly once.  The first one
    that throws ends the call with its error: the accessories after it are
    not updated.  The arrays are never changed. *)
Theorem updateState_stops_at_first_failure (state : Val) (w : PWorld) :
  ((forall a, a ∈ accessories (platform w) ->
      exists v, updateCharacteristics a state = Normal v) ->
   fst (updateState updateCharacteristics state w) = Normal VUndef /\
   updated (ptrace (snd (updateState updateCharacteristics state w)))
   = (updated (ptrace w) ++ accessories (platform w))%list /\
   platform (snd (updateState updateCharacteristics state w)) = platform w) /\
  (forall before failing after e,
     accessories (platform w) = (before ++ failing :: after)%list ->
     (forall a, a ∈ before -> exists v, updateCharacteristics a state = Normal v) ->
     updateCharacteristics failing state = Throw e ->
     fst (updateState updateCharacteristics state w) = Throw e /\
     updated (ptrace (snd (updateState updateCharacteristics state w)))
     = (updated (ptrace w) ++ before ++ [failing])%list /\
     platform (snd (updateState updateCharacteristics state w)) = platform w).
Proof.
  split.
  - intros Hall. unfold updateState, precord, pgets, mbind, P_bind.
    cbn [platform ptrace]. fold (@mbind P _).
    rewrite update_each_all by exact Hall. cbn -[updated].
    rewrite !updated_app, updated_calls. cbn. rewrite app_nil_r. repeat split.
  - intros before failing after e Hacc Hbefore Hfail.
    unfold updateState, precord, pgets, mbind, P_bind.
    cbn [platform ptrace]. fold (@mbind P _). rewrite Hacc.
    set (w1 := {| platform := platform w; ptrace := _ |}).
    assert (forall w0,
              update_each updateCharacteristics (before ++ failing :: after) state w0 =
              (Throw e,
               {| platform := platform w0;
                  ptrace := ptrace w0 ++
                            map (fun a => Call "accessory.updateCharacteristics" [a; state])
                              (before ++ [failing]) |})) as Hrun.
    { clear w1 Hacc. induction before as [|b before IH]; intros w0.
      - cbn [app update_each]. unfold precord, plift, mbind, P_bind. rewrite Hfail. reflexivity.
      - destruct (Hbefore b) as [v Hv]; [left|].
        cbn [app update_each]. unfold precord, plift, mbind, P_bind. rewrite Hv.
        fold (@mbind P _). rewrite IH by (intros a' Ha'; apply Hbefore; now right).
        cbn [platform ptrace map]. rewrite <- app_assoc. reflexivity. }
    rewrite Hrun. subst w1. cbn -[updated].
    rewrite !updated_app, updated_calls. cbn. rewrite app_nil_r. repeat split.
Qed.

End Restore.

Lemma configureAccessory_restores_security_systems_witness :
  configureAccessory category_11 wrap
    (VObj [("displayName", VStr "Door"); ("category", VNum 10)]) example_platform =
  (Throw (VErr Error "Cannot refresh cached accessory with category 10"),
   {| platform := platform example_platform;
      ptrace := [Log Debug [Plain (VStr "Refreshing cached accessory"); Plain (VStr "Door")]] |}) /\
  configureAccessory category_11 wrap
    (VObj [("displayName", VStr "Alarm"); ("category", VNum 11)]) example_platform =
  (Normal VUndef,
   {| platform := push_cachedAccessories
                    (VObj [("name", VObj [("displayName", VStr "Alarm"); ("category", VNum 11)])])
                    (platform example_platform);
      ptrace := [Log Debug [Plain (VStr "Refreshing cached accessory"); Plain (VStr "Alarm")]] |}).
Proof.
  split.
  - exact (proj1 (configureAccessory_restores_security_systems category_11 wrap
                    (VObj [("displayName", VStr "Door"); ("category", VNum 10)])
                    (VStr "Door") (VNum 10) (VNum 11) example_platform
                    eq_refl eq_refl eq_refl) eq_refl).
  - exact (proj2 (configureAccessory_restores_security_systems category_11 wrap
                    (VObj [("displayName", VStr "Alarm"); ("category", VNum 11)])
                    (VStr "Alarm") (VNum 11) (VNum 11) example_platform
                    eq_refl eq_refl eq_refl) _ eq_refl eq_refl).
Defined.

Lemma updateState_stops_at_first_failure_witness :
  (fst (updateState update_unless_broken (snapshot (VNum 1) (VNum 0)) two_accessories)
   = Normal VUndef /\
   updated (ptrace (snd (updateState update_unless_broken (snapshot (VNum 1) (VNum 0))
                           two_accessories)))
   = (updated (ptrace two_accessories) ++ accessories (platform two_accessories))%list /\
   platform (snd (updateState update_unless_broken (snapshot (VNum 1) (VNum 0))
                    two_accessories))
   = platform two_accessories) /\
  (fst (updateState update_unless_broken (snapshot (VNum 1) (VNum 0)) three_accessories)
   = Throw (VErr Error "broken") /\
   updated (ptrace (snd (updateState update_unless_broken (snapshot (VNum 1) (VNum 0))
                           three_accessories)))
   = (updated (ptrace three_accessories) ++
      [VObj [("name", VStr "ADT")]] ++ [VObj [("name", VStr "broken")]])%list /\
   platform (snd (updateState update_unless_broken (snapshot (VNum 1) (VNum 0))
                    three_accessories))
   = platform three_accessories).
Proof.
  split.
  - apply (proj1 (updateState_stops_at_first_failure update_unless_broken
                    (snapshot (VNum 1) (VNum 0)) two_accessories)).
    intros a Ha. cbn in Ha.
    apply elem_of_cons in Ha as [-> | Ha]; [eexists; reflexivity|].
    apply list_elem_of_singleton in Ha. subst a. eexists. reflexivity.
  - apply (proj2 (updateState_stops_at_first_failure update_unless_broken
                    (snapshot (VNum 1) (VNum 0)) three_accessories)
             [VObj [("name", VStr "ADT")]] (VObj [("name", VStr "broken")])
             [VObj [("name", VStr "Door")]] (VErr Error "broken")).
    + reflexivity.
    + intros a Ha. apply list_elem_of_singleton in Ha. subst a. eexists. reflexivity.
    + reflexivity.
Defined.
